(** * Debounce16: a 16-sample shift-register debouncer with a gesture machine

    Shallow embedding of [src/Debounce16.h] and [src/Debounce16.cpp].

    - The class members become the fields of the record [Debounce16];
      [uint16_t], [uint8_t] and [unsigned long] (32 bits on the ESP32) are
      integers in [Z] with their wrap-around written out.
    - Member functions become computations in a small state monad [M] over
      the object.  The monad also collects, in order, the handlers that
      [triggerCallback] invokes; a handler is identified by a number and is
      assumed not to call back into the object.
    - The two ambient inputs of [update], the pin level returned by
      [digitalRead] and the clock value returned by [millis], are explicit
      arguments.  [pinMode] in the constructor is GPIO set-up and is left
      out. *)

From Stdlib Require Import ZArith List Bool Lia.
From Stdlib Require String.
Import ListNotations.
Local Open Scope Z_scope.

(** ** Data model *)

(** [enum class ButtonState : uint8_t] *)
Inductive ButtonState : Type :=
| STATE_IDLE
| STATE_PRESS_FIRST
| STATE_RELEASE_FIRST
| STATE_WAIT_DOUBLE_PRESS
| STATE_WAIT_LONG_PRESS
| STATE_LONG_PRESS_ACTIVE.

Definition ButtonState_eqb (a b : ButtonState) : bool :=
  match a, b with
  | STATE_IDLE, STATE_IDLE
  | STATE_PRESS_FIRST, STATE_PRESS_FIRST
  | STATE_RELEASE_FIRST, STATE_RELEASE_FIRST
  | STATE_WAIT_DOUBLE_PRESS, STATE_WAIT_DOUBLE_PRESS
  | STATE_WAIT_LONG_PRESS, STATE_WAIT_LONG_PRESS
  | STATE_LONG_PRESS_ACTIVE, STATE_LONG_PRESS_ACTIVE => true
  | _, _ => false
  end.

(** A registered handler (a pointer to a function without arguments),
    named by a number. *)
Definition Handler : Type := nat.

(** A callback slot: [None] is [nullptr]. *)
Definition callback : Type := option Handler.

(** The private members of [class Debounce16], in the order of the header. *)
Record Debounce16 : Type := mkDebounce16 {
  historyButton : Z;            (* uint16_t *)
  pinButton : Z;                (* uint8_t *)
  levelActive : bool;           (* HIGH = true, LOW = false *)
  stateButton : ButtonState;
  timeEvent : Z;                (* unsigned long *)
  timePress : Z;                (* unsigned long *)
  flagEnableDoublePress : bool;
  flagEnableLongPress : bool;
  windowDoublePress : Z;        (* uint16_t *)
  thresholdLongPress : Z;       (* uint16_t *)
  countClick : Z;               (* uint8_t *)
  flagDoublePressed : bool;
  flagLongPressed : bool;
  flagPressProcessed : bool;
  flagReleaseProcessed : bool;
  callbackPress : callback;
  callbackRelease : callback;
  callbackDoublePress : callback;
  callbackLongPressStart : callback;
  callbackLongPressEnd : callback
}.

(** Bit pattern constants (16-bit patterns). *)
Definition MASK_PRESS : Z := 0x003F.
Definition PATTERN_PRESS : Z := 0x003F.
Definition MASK_RELEASE : Z := 0xFC00.
Definition PATTERN_RELEASE : Z := 0xFC00.
Definition PATTERN_DOWN : Z := 0xFFFF.
Definition PATTERN_UP : Z := 0x0000.

(** Truncation on assignment to [uint16_t] and wrap-around of
    [unsigned long] arithmetic. *)
Definition to_u16 (z : Z) : Z := z mod 2 ^ 16.
Definition to_u32 (z : Z) : Z := z mod 2 ^ 32.

(** ** Assignments to single members *)

Definition set_historyButton (v : Z) (d : Debounce16) : Debounce16 :=
  match d with
  | mkDebounce16 _ pin lvl st te tp edp elp win thr cnt fdp flp fpp frp cbp cbr cbd cbs cbe =>
    mkDebounce16 v pin lvl st te tp edp elp win thr cnt fdp flp fpp frp cbp cbr cbd cbs cbe
  end.

Definition set_stateButton (v : ButtonState) (d : Debounce16) : Debounce16 :=
  match d with
  | mkDebounce16 h pin lvl _ te tp edp elp win thr cnt fdp flp fpp frp cbp cbr cbd cbs cbe =>
    mkDebounce16 h pin lvl v te tp edp elp win thr cnt fdp flp fpp frp cbp cbr cbd cbs cbe
  end.

Definition set_timeEvent (v : Z) (d : Debounce16) : Debounce16 :=
  match d with
  | mkDebounce16 h pin lvl st _ tp edp elp win thr cnt fdp flp fpp frp cbp cbr cbd cbs cbe =>
    mkDebounce16 h pin lvl st v tp edp elp win thr cnt fdp flp fpp frp cbp cbr cbd cbs cbe
  end.

Definition set_timePress (v : Z) (d : Debounce16) : Debounce16 :=
  match d with
  | mkDebounce16 h pin lvl st te _ edp elp win thr cnt fdp flp fpp frp cbp cbr cbd cbs cbe =>
    mkDebounce16 h pin lvl st te v edp elp win thr cnt fdp flp fpp frp cbp cbr cbd cbs cbe
  end.

Definition set_flagEnableDoublePress (v : bool) (d : Debounce16) : Debounce16 :=
  match d with
  | mkDebounce16 h pin lvl st te tp _ elp win thr cnt fdp flp fpp frp cbp cbr cbd cbs cbe =>
    mkDebounce16 h pin lvl st te tp v elp win thr cnt fdp flp fpp frp cbp cbr cbd cbs cbe
  end.

Definition set_flagEnableLongPress (v : bool) (d : Debounce16) : Debounce16 :=
  match d with
  | mkDebounce16 h pin lvl st te tp edp _ win thr cnt fdp flp fpp frp cbp cbr cbd cbs cbe =>
    mkDebounce16 h pin lvl st te tp edp v win thr cnt fdp flp fpp frp cbp cbr cbd cbs cbe
  end.

Definition set_windowDoublePress (v : Z) (d : Debounce16) : Debounce16 :=
  match d with
  | mkDebounce16 h pin lvl st te tp edp elp _ thr cnt fdp flp fpp frp cbp cbr cbd cbs cbe =>
    mkDebounce16 h pin lvl st te tp edp elp v thr cnt fdp flp fpp frp cbp cbr cbd cbs cbe
  end.

Definition set_thresholdLongPress (v : Z) (d : Debounce16) : Debounce16 :=
  match d with
  | mkDebounce16 h pin lvl st te tp edp elp win _ cnt fdp flp fpp frp cbp cbr cbd cbs cbe =>
    mkDebounce16 h pin lvl st te tp edp elp win v cnt fdp flp fpp frp cbp cbr cbd cbs cbe
  end.

Definition set_countClick (v : Z) (d : Debounce16) : Debounce16 :=
  match d with
  | mkDebounce16 h pin lvl st te tp edp elp win thr _ fdp flp fpp frp cbp cbr cbd cbs cbe =>
    mkDebounce16 h pin lvl st te tp edp elp win thr v fdp flp fpp frp cbp cbr cbd cbs cbe
  end.

Definition set_flagDoublePressed (v : bool) (d : Debounce16) : Debounce16 :=
  match d with
  | mkDebounce16 h pin lvl st te tp edp elp win thr cnt _ flp fpp frp cbp cbr cbd cbs cbe =>
    mkDebounce16 h pin lvl st te tp edp elp win thr cnt v flp fpp frp cbp cbr cbd cbs cbe
  end.

Definition set_flagLongPressed (v : bool) (d : Debounce16) : Debounce16 :=
  match d with
  | mkDebounce16 h pin lvl st te tp edp elp win thr cnt fdp _ fpp frp cbp cbr cbd cbs cbe =>
    mkDebounce16 h pin lvl st te tp edp elp win thr cnt fdp v fpp frp cbp cbr cbd cbs cbe
  end.

Definition set_flagPressProcessed (v : bool) (d : Debounce16) : Debounce16 :=
  match d with
  | mkDebounce16 h pin lvl st te tp edp elp win thr cnt fdp flp _ frp cbp cbr cbd cbs cbe =>
    mkDebounce16 h pin lvl st te tp edp elp win thr cnt fdp flp v frp cbp cbr cbd cbs cbe
  end.

Definition set_flagReleaseProcessed (v : bool) (d : Debounce16) : Debounce16 :=
  match d with
  | mkDebounce16 h pin lvl st te tp edp elp win thr cnt fdp flp fpp _ cbp cbr cbd cbs cbe =>
    mkDebounce16 h pin lvl st te tp edp elp win thr cnt fdp flp fpp v cbp cbr cbd cbs cbe
  end.

Definition set_callbackPress (v : callback) (d : Debounce16) : Debounce16 :=
  match d with
  | mkDebounce16 h pin lvl st te tp edp elp win thr cnt fdp flp fpp frp _ cbr cbd cbs cbe =>
    mkDebounce16 h pin lvl st te tp edp elp win thr cnt fdp flp fpp frp v cbr cbd cbs cbe
  end.

Definition set_callbackRelease (v : callback) (d : Debounce16) : Debounce16 :=
  match d with
  | mkDebounce16 h pin lvl st te tp edp elp win thr cnt fdp flp fpp frp cbp _ cbd cbs cbe =>
    mkDebounce16 h pin lvl st te tp edp elp win thr cnt fdp flp fpp frp cbp v cbd cbs cbe
  end.

Definition set_callbackDoublePress (v : callback) (d : Debounce16) : Debounce16 :=
  match d with
  | mkDebounce16 h pin lvl st te tp edp elp win thr cnt fdp flp fpp frp cbp cbr _ cbs cbe =>
    mkDebounce16 h pin lvl st te tp edp elp win thr cnt fdp flp fpp frp cbp cbr v cbs cbe
  end.

Definition set_callbackLongPressStart (v : callback) (d : Debounce16) : Debounce16 :=
  match d with
  | mkDebounce16 h pin lvl st te tp edp elp win thr cnt fdp flp fpp frp cbp cbr cbd _ cbe =>
    mkDebounce16 h pin lvl st te tp edp elp win thr cnt fdp flp fpp frp cbp cbr cbd v cbe
  end.

Definition set_callbackLongPressEnd (v : callback) (d : Debounce16) : Debounce16 :=
  match d with
  | mkDebounce16 h pin lvl st te tp edp elp win thr cnt fdp flp fpp frp cbp cbr cbd cbs _ =>
    mkDebounce16 h pin lvl st te tp edp elp win thr cnt fdp flp fpp frp cbp cbr cbd cbs v
  end.

(** ** The monad of member functions

    A member function takes the object and returns its result, the object
    afterwards and the handlers it invoked, oldest first. *)

Definition M (A : Type) : Type := Debounce16 -> A * Debounce16 * list Handler.

Definition ret {A} (a : A) : M A := fun d => (a, d, []).

Definition bind {A B} (m : M A) (k : A -> M B) : M B :=
  fun d =>
    match m d with
    | (a, d1, t1) =>
      match k a d1 with
      | (b, d2, t2) => (b, d2, t1 ++ t2)
      end
    end.

Definition gets {A} (f : Debounce16 -> A) : M A := fun d => (f d, d, []).
Definition modify (f : Debounce16 -> Debounce16) : M unit :=
  fun d => (tt, f d, []).
Definition invoke (h : Handler) : M unit := fun d => (tt, d, [h]).

Notation "x <- m ;; k" := (bind m (fun x => k))
  (at level 61, m at next level, right associativity).
Notation "m ;; k" := (bind m (fun _ => k))
  (at level 61, right associativity).

Definition result {A} (r : A * Debounce16 * list Handler) : A := fst (fst r).
Definition object {A} (r : A * Debounce16 * list Handler) : Debounce16 :=
  snd (fst r).
Definition invoked {A} (r : A * Debounce16 * list Handler) : list Handler :=
  snd r.

(** ** Member functions *)

(** Constructor.  [pin] and [activeLevel] are stored; history starts at
    [PATTERN_UP], the machine in [STATE_IDLE], both features disabled, no
    callback registered. *)
Definition Debounce16_new (pin : Z) (activeLevel : bool) : Debounce16 :=
  {| pinButton := pin;
     levelActive := activeLevel;
     historyButton := PATTERN_UP;
     stateButton := STATE_IDLE;
     timeEvent := 0;
     timePress := 0;
     windowDoublePress := 300;
     thresholdLongPress := 1000;
     flagEnableDoublePress := false;
     flagEnableLongPress := false;
     countClick := 0;
     flagDoublePressed := false;
     flagLongPressed := false;
     flagPressProcessed := false;
     flagReleaseProcessed := false;
     callbackPress := None;
     callbackRelease := None;
     callbackDoublePress := None;
     callbackLongPressStart := None;
     callbackLongPressEnd := None |}.

(** [triggerCallback]: execute the callback if one is registered. *)
Definition triggerCallback (cb : callback) : M unit :=
  match cb with
  | Some h => invoke h
  | None => ret tt
  end.

(** [resetState]: back to idle, counters and event flags cleared. *)
Definition resetState : M unit :=
  modify (set_stateButton STATE_IDLE) ;;
  modify (set_countClick 0) ;;
  modify (set_flagDoublePressed false) ;;
  modify (set_flagLongPressed false).

(** [readButtonRaw]: [stateRaw] is what [digitalRead(pinButton)] returned. *)
Definition readButtonRaw (stateRaw : bool) : M bool :=
  lvl <- gets levelActive ;;
  if lvl then ret stateRaw else ret (negb stateRaw).

(** [isPressed] *)
Definition isPressed : M bool :=
  h <- gets historyButton ;;
  processed <- gets flagPressProcessed ;;
  if (Z.land h MASK_PRESS =? PATTERN_PRESS) && negb processed then
    modify (set_flagPressProcessed true) ;;
    cb <- gets callbackPress ;;
    triggerCallback cb ;;
    ret true
  else if negb (Z.land h MASK_PRESS =? PATTERN_PRESS) then
    modify (set_flagPressProcessed false) ;;
    ret false
  else ret false.

(** [isReleased] *)
Definition isReleased : M bool :=
  h <- gets historyButton ;;
  processed <- gets flagReleaseProcessed ;;
  if (Z.land h MASK_RELEASE =? PATTERN_RELEASE) && negb processed then
    modify (set_flagReleaseProcessed true) ;;
    cb <- gets callbackRelease ;;
    triggerCallback cb ;;
    ret true
  else if negb (Z.land h MASK_RELEASE =? PATTERN_RELEASE) then
    modify (set_flagReleaseProcessed false) ;;
    ret false
  else ret false.

(** [isDown], [isUp] *)
Definition isDown : M bool :=
  h <- gets historyButton ;; ret (h =? PATTERN_DOWN).

Definition isUp : M bool :=
  h <- gets historyButton ;; ret (h =? PATTERN_UP).

(** [enableDoublePressDetection] *)
Definition enableDoublePressDetection (enable : bool) : M unit :=
  modify (set_flagEnableDoublePress enable) ;;
  if negb enable then
    modify (set_countClick 0) ;;
    modify (set_flagDoublePressed false)
  else ret tt.

(** [setDoublePressWindow]; the argument is a [uint16_t]. *)
Definition setDoublePressWindow (windowMs : Z) : M unit :=
  modify (set_windowDoublePress (to_u16 windowMs)).

(** [enableLongPressDetection] *)
Definition enableLongPressDetection (enable : bool) : M unit :=
  modify (set_flagEnableLongPress enable) ;;
  if negb enable then modify (set_flagLongPressed false) else ret tt.

(** [setLongPressThreshold]; the argument is a [uint16_t]. *)
Definition setLongPressThreshold (thresholdMs : Z) : M unit :=
  modify (set_thresholdLongPress (to_u16 thresholdMs)).

(** [isDoublePressed] *)
Definition isDoublePressed : M bool :=
  r <- gets flagDoublePressed ;;
  (if r then modify (set_flagDoublePressed false) else ret tt) ;;
  ret r.

(** [isLongPressed] *)
Definition isLongPressed : M bool := gets flagLongPressed.

(** [getClickCount] *)
Definition getClickCount : M Z :=
  r <- gets countClick ;;
  st <- gets stateButton ;;
  (if (0 <? r) && ButtonState_eqb st STATE_IDLE
   then modify (set_countClick 0) else ret tt) ;;
  ret r.

(** Callback registration. *)
Definition onPress (cb : callback) : M unit := modify (set_callbackPress cb).
Definition onRelease (cb : callback) : M unit :=
  modify (set_callbackRelease cb).
Definition onDoublePress (cb : callback) : M unit :=
  modify (set_callbackDoublePress cb).
Definition onLongPressStart (cb : callback) : M unit :=
  modify (set_callbackLongPressStart cb).
Definition onLongPressEnd (cb : callback) : M unit :=
  modify (set_callbackLongPressEnd cb).

(** [updateStateMachine]; [currentTime] is what [millis()] returned. *)
Definition updateStateMachine (currentTime : Z) : M unit :=
  st <- gets stateButton ;;
  match st with
  | STATE_IDLE =>
    pressed <- isPressed ;;
    if pressed then
      modify (set_timePress currentTime) ;;
      modify (set_countClick 1) ;;
      modify (set_stateButton STATE_PRESS_FIRST)
    else ret tt
  | STATE_PRESS_FIRST =>
    enLong <- gets flagEnableLongPress ;;
    (if enLong then
       tp <- gets timePress ;;
       thr <- gets thresholdLongPress ;;
       lp <- gets flagLongPressed ;;
       let timeElapsed := to_u32 (currentTime - tp) in
       if (thr <=? timeElapsed) && negb lp then
         modify (set_flagLongPressed true) ;;
         modify (set_stateButton STATE_LONG_PRESS_ACTIVE) ;;
         cb <- gets callbackLongPressStart ;;
         triggerCallback cb
       else ret tt
     else ret tt) ;;
    released <- isReleased ;;
    if released then
      modify (set_timeEvent currentTime) ;;
      lp <- gets flagLongPressed ;;
      enDouble <- gets flagEnableDoublePress ;;
      if lp then resetState
      else if enDouble then modify (set_stateButton STATE_RELEASE_FIRST)
      else resetState
    else ret tt
  | STATE_RELEASE_FIRST =>
    te <- gets timeEvent ;;
    win <- gets windowDoublePress ;;
    let timeElapsed := to_u32 (currentTime - te) in
    pressed <- isPressed ;;
    if pressed && (timeElapsed <? win) then
      modify (set_countClick 2) ;;
      modify (set_timePress currentTime) ;;
      modify (set_stateButton STATE_PRESS_FIRST)
    else if win <=? timeElapsed then
      cnt <- gets countClick ;;
      (if cnt =? 2 then
         modify (set_flagDoublePressed true) ;;
         cb <- gets callbackDoublePress ;;
         triggerCallback cb
       else ret tt) ;;
      resetState
    else ret tt
  | STATE_LONG_PRESS_ACTIVE =>
    released <- isReleased ;;
    if released then
      modify (set_flagLongPressed false) ;;
      cb <- gets callbackLongPressEnd ;;
      triggerCallback cb ;;
      resetState
    else ret tt
  | STATE_WAIT_DOUBLE_PRESS => ret tt
  | STATE_WAIT_LONG_PRESS => ret tt
  end.

(** [update]: shift the new sample into the history, then advance the
    machine if an advanced feature is enabled.  The shift is done in [int]
    and the assignment truncates to 16 bits. *)
Definition update (stateRaw : bool) (currentTime : Z) : M unit :=
  currentState <- readButtonRaw stateRaw ;;
  h <- gets historyButton ;;
  modify (set_historyButton
            (to_u16 (Z.lor (Z.shiftl h 1) (Z.b2z currentState)))) ;;
  enDouble <- gets flagEnableDoublePress ;;
  enLong <- gets flagEnableLongPress ;;
  if enDouble || enLong then updateStateMachine currentTime else ret tt.

(** ** Clients

    A client drives the object through its public member functions.  A
    [Call] names one invocation with its arguments; [Reply] is what it
    returns. *)

Inductive Call : Type :=
| CallUpdate (stateRaw : bool) (currentTime : Z)
| CallIsPressed
| CallIsReleased
| CallIsDown
| CallIsUp
| CallEnableDoublePressDetection (enable : bool)
| CallSetDoublePressWindow (windowMs : Z)
| CallEnableLongPressDetection (enable : bool)
| CallSetLongPressThreshold (thresholdMs : Z)
| CallIsDoublePressed
| CallIsLongPressed
| CallGetClickCount
| CallOnPress (cb : callback)
| CallOnRelease (cb : callback)
| CallOnDoublePress (cb : callback)
| CallOnLongPressStart (cb : callback)
| CallOnLongPressEnd (cb : callback).

Inductive Reply : Type :=
| Void
| Bool (b : bool)
| Count (n : Z).

Definition void (m : M unit) : M Reply := m ;; ret Void.
Definition boolean (m : M bool) : M Reply := b <- m ;; ret (Bool b).

Definition call (c : Call) : M Reply :=
  match c with
  | CallUpdate stateRaw currentTime => void (update stateRaw currentTime)
  | CallIsPressed => boolean isPressed
  | CallIsReleased => boolean isReleased
  | CallIsDown => boolean isDown
  | CallIsUp => boolean isUp
  | CallEnableDoublePressDetection e => void (enableDoublePressDetection e)
  | CallSetDoublePressWindow w => void (setDoublePressWindow w)
  | CallEnableLongPressDetection e => void (enableLongPressDetection e)
  | CallSetLongPressThreshold t => void (setLongPressThreshold t)
  | CallIsDoublePressed => boolean isDoublePressed
  | CallIsLongPressed => boolean isLongPressed
  | CallGetClickCount => n <- getClickCount ;; ret (Count n)
  | CallOnPress cb => void (onPress cb)
  | CallOnRelease cb => void (onRelease cb)
  | CallOnDoublePress cb => void (onDoublePress cb)
  | CallOnLongPressStart cb => void (onLongPressStart cb)
  | CallOnLongPressEnd cb => void (onLongPressEnd cb)
  end.

(** A sequence of calls, with the replies in order. *)
Fixpoint calls (cs : list Call) : M (list Reply) :=
  match cs with
  | [] => ret []
  | c :: cs' => r <- call c ;; rs <- calls cs' ;; ret (r :: rs)
  end.

(** [n] ticks at a cadence of one per millisecond, all reading the pin
    level [stateRaw]; the first one at time [t]. *)
Fixpoint ticks (n : nat) (stateRaw : bool) (t : Z) : list Call :=
  match n with
  | O => []
  | S n' => CallUpdate stateRaw t :: ticks n' stateRaw (t + 1)
  end.

(** A client that only ticks: each input is the pin level read and the
    clock value of one [update]. *)
Definition feed (inputs : list (bool * Z)) : list Call :=
  map (fun x => CallUpdate (fst x) (snd x)) inputs.

(** A client that ticks and polls [isPressed] after every tick; the result
    lists what the polls returned. *)
Fixpoint poll_presses (inputs : list (bool * Z)) : M (list bool) :=
  match inputs with
  | [] => ret []
  | x :: rest =>
    update (fst x) (snd x) ;;
    p <- isPressed ;;
    ps <- poll_presses rest ;;
    ret (p :: ps)
  end.

(** A client never enables double-press detection. *)
Definition never_enables_double_press (cs : list Call) : bool :=
  forallb (fun c => match c with
                    | CallEnableDoublePressDetection true => false
                    | _ => true
                    end) cs.

(** ** Vocabulary used in the statements *)

(** The value [update] assigns to [historyButton]. *)
Definition shift_in (h : Z) (b : bool) : Z :=
  to_u16 (Z.lor (Z.shiftl h 1) (Z.b2z b)).

(** The sample [readButtonRaw] makes of a pin level: ON when the level is
    the active one. *)
Definition sample_of (activeLevel stateRaw : bool) : bool :=
  if activeLevel then stateRaw else negb stateRaw.

(** The normalised samples of a list of tick inputs. *)
Definition samples_of (activeLevel : bool) (inputs : list (bool * Z))
  : list bool :=
  map (fun x => sample_of activeLevel (fst x)) inputs.

(** The pattern tests of [isPressed] and [isReleased]. *)
Definition press_pattern (h : Z) : bool :=
  Z.land h MASK_PRESS =? PATTERN_PRESS.
Definition release_pattern (h : Z) : bool :=
  Z.land h MASK_RELEASE =? PATTERN_RELEASE.

(** The members that only the constructor and the configuration and
    registration functions assign. *)
Definition settings (d : Debounce16) :=
  (pinButton d, levelActive d, flagEnableDoublePress d, flagEnableLongPress d,
   windowDoublePress d, thresholdLongPress d,
   (callbackPress d, callbackRelease d, callbackDoublePress d,
    callbackLongPressStart d, callbackLongPressEnd d)).

(** Whether [update] runs the state machine, and which edge the machine
    polls in the state the object is in. *)
Definition machine_runs (d : Debounce16) : bool :=
  flagEnableDoublePress d || flagEnableLongPress d.

Definition machine_polls_press (d : Debounce16) : bool :=
  machine_runs d &&
  match stateButton d with
  | STATE_IDLE | STATE_RELEASE_FIRST => true
  | _ => false
  end.

Definition machine_polls_release (d : Debounce16) : bool :=
  machine_runs d &&
  match stateButton d with
  | STATE_PRESS_FIRST | STATE_LONG_PRESS_ACTIVE => true
  | _ => false
  end.

(** What an object can show when double-press detection has never been
    enabled: the machine never waits for a second press and the click
    counter is 0 or 1. *)
Definition single_clicks_only (d : Debounce16) : Prop :=
  flagEnableDoublePress d = false /\
  stateButton d <> STATE_RELEASE_FIRST /\
  (countClick d = 0 \/ countClick d = 1).

(** *** Runs of ON samples, in the words of the specification *)

(** Sample [i] is the sixth of a maximal run of ON samples: the six samples
    up to it are ON, and the one before them, if any, is OFF. *)
Definition sixth_sample (samples : list bool) (i : nat) : Prop :=
  (5 <= i)%nat /\
  (forall j, (j <= 5)%nat -> nth (i - j) samples false = true) /\
  ((6 <= i)%nat -> nth (i - 6) samples false = false).

(** The same as a run counter: [r] is the length of the run of ON samples
    that ends at the sample before the list, and the result is true exactly
    at the samples that make a run six long. *)
Fixpoint sixth_of_run (r : nat) (samples : list bool) : list bool :=
  match samples with
  | [] => []
  | b :: rest =>
    let r' := if b then S r else O in
    Nat.eqb r' 6 :: sixth_of_run r' rest
  end.

(** The lengths of the maximal runs of ON samples, oldest first. *)
Fixpoint runs_from (r : nat) (samples : list bool) : list nat :=
  match samples with
  | [] => if Nat.eqb r 0 then [] else [r]
  | true :: rest => runs_from (S r) rest
  | false :: rest => (if Nat.eqb r 0 then [] else [r]) ++ runs_from 0 rest
  end.

(** How often a client saw [true]. *)
Definition fired (polls : list bool) : nat := length (filter id polls).

(** The number of maximal runs of at least six ON samples. *)
Definition long_runs (r : nat) (samples : list bool) : nat :=
  length (filter (Nat.leb 6) (runs_from r samples)).

(** [tracks r h]: the history [h] ends in a run of [r] ON samples, as far
    as the six bits of the press pattern can tell. *)
Definition tracks (r : nat) (h : Z) : Prop :=
  (forall i, 0 <= i < Z.of_nat (Nat.min r 6) -> Z.testbit h i = true) /\
  ((r < 6)%nat -> Z.testbit h (Z.of_nat r) = false).

(** ** Scenarios

    All scenarios start from a fresh object on pin 17, active HIGH, ticked
    once per millisecond from time 1, with these handlers registered. *)

Definition fresh : Debounce16 := Debounce16_new 17 true.

Definition press_handler : Handler := 1%nat.
Definition release_handler : Handler := 2%nat.
Definition double_press_handler : Handler := 3%nat.
Definition long_press_start_handler : Handler := 4%nat.
Definition long_press_end_handler : Handler := 5%nat.

Definition register_handlers : list Call :=
  [CallOnPress (Some press_handler);
   CallOnRelease (Some release_handler);
   CallOnDoublePress (Some double_press_handler);
   CallOnLongPressStart (Some long_press_start_handler);
   CallOnLongPressEnd (Some long_press_end_handler)].

(** Long press: long-press detection with threshold 1000 ms, then the
    contact held ON for [n] ticks.  The press edge is at time 6. *)
Definition long_hold (n : nat) : list Call :=
  [CallEnableLongPressDetection true; CallSetLongPressThreshold 1000]
    ++ register_handlers ++ ticks n true 1.

(** Double-press detection enabled and the contact ON for five ticks: the
    next ON tick completes the press pattern. *)
Definition five_on : list Call :=
  [CallEnableDoublePressDetection true] ++ register_handlers
    ++ ticks 5 true 1.

(** One click with double-press detection and window 300 ms: ON for ten
    ticks, OFF for six.  The press edge is at time 6, the release edge at
    time 16, and the machine waits for the second press. *)
Definition first_click : list Call :=
  [CallEnableDoublePressDetection true; CallSetDoublePressWindow 300]
    ++ register_handlers ++ ticks 10 true 1 ++ ticks 6 false 11.

(** A second click whose press edge is at time 366, which is 350 ms after
    the release edge of the first; then the contact stays OFF until time
    770. *)
Definition late_second_click : list Call :=
  first_click ++ ticks 344 false 17 ++ ticks 10 true 361
    ++ ticks 400 false 371.

(** Both features enabled, one press and release: the machine waits for
    the second press. *)
Definition half_gesture : list Call :=
  [CallEnableLongPressDetection true; CallEnableDoublePressDetection true]
    ++ ticks 10 true 1 ++ ticks 6 false 11.

(** The same ticks with double-press detection never enabled. *)
Definition half_gesture_never_enabled : list Call :=
  [CallEnableLongPressDetection true] ++ ticks 10 true 1 ++ ticks 6 false 11.

(** Disable double-press detection, press again, read the click count. *)
Definition disable_then_press : list Call :=
  [CallEnableDoublePressDetection false] ++ ticks 6 true 17
    ++ [CallGetClickCount].


(** * Further definitions *)

(** ** Vocabulary of the further properties *)

(** The members of the fixed-width types hold values of their types. *)
Definition in_range (d : Debounce16) : Prop :=
  0 <= historyButton d < 2 ^ 16 /\
  0 <= windowDoublePress d < 2 ^ 16 /\
  0 <= thresholdLongPress d < 2 ^ 16 /\
  0 <= countClick d <= 2.

(** What holds of the machine between any two calls of a client. *)
Definition machine_ok (d : Debounce16) : Prop :=
  stateButton d <> STATE_WAIT_DOUBLE_PRESS /\
  stateButton d <> STATE_WAIT_LONG_PRESS /\
  (flagLongPressed d = true -> stateButton d = STATE_LONG_PRESS_ACTIVE) /\
  flagDoublePressed d = false /\
  (stateButton d = STATE_IDLE -> countClick d = 0).

(** The five callback slots of an object, and the slot value a
    registration call stores. *)
Definition slots (d : Debounce16) : list callback :=
  [callbackPress d; callbackRelease d; callbackDoublePress d;
   callbackLongPressStart d; callbackLongPressEnd d].

Definition registers (c : Call) : list callback :=
  match c with
  | CallOnPress cb | CallOnRelease cb | CallOnDoublePress cb
  | CallOnLongPressStart cb | CallOnLongPressEnd cb => [cb]
  | _ => []
  end.

(** The configuration and registration calls. *)
Definition is_setting_call (c : Call) : bool :=
  match c with
  | CallEnableDoublePressDetection _ | CallSetDoublePressWindow _
  | CallEnableLongPressDetection _ | CallSetLongPressThreshold _
  | CallOnPress _ | CallOnRelease _ | CallOnDoublePress _
  | CallOnLongPressStart _ | CallOnLongPressEnd _ => true
  | _ => false
  end.

(** The same call with the pin reading the other level, and the same
    object with the other polarity. *)
Definition flip_call (c : Call) : Call :=
  match c with
  | CallUpdate stateRaw currentTime => CallUpdate (negb stateRaw) currentTime
  | _ => c
  end.

Definition flip_level (d : Debounce16) : Debounce16 :=
  match d with
  | mkDebounce16 h pin lvl st te tp edp elp win thr cnt fdp flp fpp frp cbp cbr cbd cbs cbe =>
    mkDebounce16 h pin (negb lvl) st te tp edp elp win thr cnt fdp flp fpp frp cbp cbr cbd cbs cbe
  end.

(** A client that ticks and polls [isReleased] after every tick. *)
Fixpoint poll_releases (inputs : list (bool * Z)) : M (list bool) :=
  match inputs with
  | [] => ret []
  | x :: rest =>
    update (fst x) (snd x) ;;
    p <- isReleased ;;
    ps <- poll_releases rest ;;
    ret (p :: ps)
  end.

(** [delayed r pending h]: the ten newest samples of the history [h] are
    [pending], oldest first, and before them the history ends in a run of
    [r] ON samples, as far as the six bits of the release pattern can
    tell. *)
Definition delayed (r : nat) (pending : list bool) (h : Z) : Prop :=
  length pending = 10%nat /\
  (forall k, (k < 10)%nat ->
     Z.testbit h (9 - Z.of_nat k) = nth k pending false) /\
  (forall i, 0 <= i < Z.of_nat (Nat.min r 6) ->
     Z.testbit h (10 + i) = true) /\
  ((r < 6)%nat -> Z.testbit h (10 + Z.of_nat r) = false).

(** [ones k h]: the [k] newest samples of the history [h] are ON and the
    older ones OFF. *)
Definition ones (k : nat) (h : Z) : Prop :=
  forall i, 0 <= i < 16 -> Z.testbit h i = (i <? Z.of_nat k).

(** [held k d]: what holds of an object whose machine runs, after the
    contact has read ON for [k] ticks from idle and released. *)
Definition held (k : nat) (d : Debounce16) : Prop :=
  machine_runs d = true /\
  ones k (historyButton d) /\
  if Nat.ltb k 6 then
    stateButton d = STATE_IDLE /\ flagPressProcessed d = false /\
    flagLongPressed d = false
  else if Nat.ltb k 16 then
    flagPressProcessed d = true /\
    (stateButton d = STATE_PRESS_FIRST /\ flagLongPressed d = false \/
     stateButton d = STATE_LONG_PRESS_ACTIVE) /\
    ((7 <= k)%nat -> flagReleaseProcessed d = false)
  else
    flagPressProcessed d = true /\
    (stateButton d = STATE_IDLE \/ stateButton d = STATE_RELEASE_FIRST) /\
    flagLongPressed d = false.

(** Ticks that all read the active level of the object, at the given
    times. *)
Definition hold_at (d : Debounce16) (times : list Z) : list (bool * Z) :=
  map (fun t => (levelActive d, t)) times.

(** The registration calls. *)
Definition is_registration (c : Call) : bool :=
  match c with
  | CallOnPress _ | CallOnRelease _ | CallOnDoublePress _
  | CallOnLongPressStart _ | CallOnLongPressEnd _ => true
  | _ => false
  end.

(** How often a handler was invoked. *)
Definition times_invoked (k : Handler) (tr : list Handler) : nat :=
  count_occ Nat.eq_dec tr k.

(** 1 while the machine is in the long-press state, else 0. *)
Definition long_press_open (d : Debounce16) : nat :=
  match stateButton d with
  | STATE_LONG_PRESS_ACTIVE => 1%nat
  | _ => 0%nat
  end.

(** The long-press handlers [s] (start) and [e] (end) are registered and
    no other slot holds either of them. *)
Definition long_press_handlers (s e : Handler) (d : Debounce16) : Prop :=
  callbackLongPressStart d = Some s /\
  callbackLongPressEnd d = Some e /\
  s <> e /\
  callbackPress d <> Some s /\ callbackPress d <> Some e /\
  callbackRelease d <> Some s /\ callbackRelease d <> Some e /\
  callbackDoublePress d <> Some s /\ callbackDoublePress d <> Some e.

(** ** The example sketches

    [examples/DebounceSimple/DebounceSimple.ino] and the double-press
    sketch ([DoublePressDetection.ino]) drive one button from [loop].
    What a sketch does to the board is listed as [Output]s, oldest first.
    An [Iteration] holds what one run of [loop] reads: the clock at its
    top, and the pin and the clock as [update] reads them if it is
    called.  [LED_BUILTIN] is the board's; the functions take it as an
    argument. *)

Inductive PinModes : Type := INPUT | INPUT_PULLUP | OUTPUT.

Inductive Output : Type :=
| SerialBegin (baud : Z)
| SerialPrint (s : String.string)
| SerialPrintln (s : String.string)
| PinMode (pin : Z) (mode : PinModes)
| DigitalWrite (pin : Z) (level : bool)
| Invoked (h : Handler).

Record Iteration : Type := mkIteration {
  currentMillis : Z;
  pinLevel : bool;
  updateMillis : Z
}.

Module DebounceSimple.

Import String.

Definition PIN_BUTTON : Z := 17.
Definition PIN_LED : Z := 15.
Definition INTERVAL_BLINK : Z := 1000.
Definition INTERVAL_DEBOUNCE : Z := 1.

Record Globals : Type := mkGlobals {
  stateLed : bool;
  stateHeartbeat : bool;
  timeBlink : Z;
  timeDebounce : Z;
  button : Debounce16
}.

Definition logicLevel : bool := true.

Definition globals : Globals :=
  {| stateLed := false;
     stateHeartbeat := false;
     timeBlink := 0;
     timeDebounce := 0;
     button := Debounce16_new PIN_BUTTON logicLevel |}.

Definition pressed_report : string := "Button pressed - LED is now: ".

Definition setup (LED_BUILTIN : Z) : list Output :=
  [SerialBegin 115200;
   SerialPrintln EmptyString;
   SerialPrintln "Debounce16 Library - Simple Example (Polling)";
   SerialPrintln "==============================================";
   SerialPrintln "- Press button to toggle LED";
   SerialPrintln "- Built-in LED shows heartbeat";
   SerialPrintln "==============================================";
   SerialPrintln EmptyString;
   PinMode PIN_LED OUTPUT;
   DigitalWrite PIN_LED false;
   PinMode LED_BUILTIN OUTPUT].

Definition loop (LED_BUILTIN : Z) (i : Iteration) (g : Globals)
  : Globals * list Output :=
  let now := currentMillis i in
  (* update the debounce state at regular intervals *)
  let '(timeDebounce1, button1, out1) :=
    if INTERVAL_DEBOUNCE <=? to_u32 (now - timeDebounce g) then
      let r := update (pinLevel i) (updateMillis i) (button g) in
      (now, object r, map Invoked (invoked r))
    else (timeDebounce g, button g, []) in
  (* check for the press event *)
  let p := isPressed button1 in
  let '(stateLed2, out2) :=
    if result p then
      let led := negb (stateLed g) in
      (led,
       [DigitalWrite PIN_LED led;
        SerialPrint pressed_report;
        SerialPrintln (if led then "ON" else "OFF")])
    else (stateLed g, []) in
  (* heartbeat *)
  let '(timeBlink3, stateHeartbeat3, out3) :=
    if INTERVAL_BLINK <=? to_u32 (now - timeBlink g) then
      (now, negb (stateHeartbeat g),
       [DigitalWrite LED_BUILTIN (negb (stateHeartbeat g))])
    else (timeBlink g, stateHeartbeat g, []) in
  ({| stateLed := stateLed2;
      stateHeartbeat := stateHeartbeat3;
      timeBlink := timeBlink3;
      timeDebounce := timeDebounce1;
      button := object p |},
   out1 ++ map Invoked (invoked p) ++ out2 ++ out3).

(** [loop] run once per iteration. *)
Fixpoint loops (LED_BUILTIN : Z) (its : list Iteration) (g : Globals)
  : Globals * list Output :=
  match its with
  | [] => (g, [])
  | i :: rest =>
    let '(g1, out1) := loop LED_BUILTIN i g in
    let '(g2, out2) := loops LED_BUILTIN rest g1 in
    (g2, out1 ++ out2)
  end.

(** The pin levels of the iterations in which [loop] calls [update],
    given the time of the last call. *)
Fixpoint sampled (last : Z) (its : list Iteration) : list bool :=
  match its with
  | [] => []
  | i :: rest =>
    if INTERVAL_DEBOUNCE <=? to_u32 (currentMillis i - last)
    then pinLevel i :: sampled (currentMillis i) rest
    else sampled last rest
  end.

(** How often the sketch reported a press. *)
Definition reports (out : list Output) : nat :=
  List.length (filter (fun o => match o with
                           | SerialPrint s => String.eqb s pressed_report
                           | _ => false
                           end) out).

End DebounceSimple.

Module DoublePressDetection.

Import String.

Definition PIN_BUTTON : Z := 17.
Definition PIN_LED_SINGLE : Z := 15.
Definition PIN_LED_DOUBLE : Z := 16.
Definition INTERVAL_BLINK : Z := 1000.
Definition INTERVAL_DEBOUNCE : Z := 1.
Definition WINDOW_DOUBLE_PRESS : Z := 300.
Definition DURATION_LED_FEEDBACK : Z := 500.

Record Globals : Type := mkGlobals {
  stateHeartbeat : bool;
  timeBlink : Z;
  timeDebounce : Z;
  timeLedSingle : Z;
  timeLedDouble : Z;
  flagLedSingleActive : bool;
  flagLedDoubleActive : bool;
  button : Debounce16
}.

Definition logicLevel : bool := true.

Definition globals : Globals :=
  {| stateHeartbeat := false;
     timeBlink := 0;
     timeDebounce := 0;
     timeLedSingle := 0;
     timeLedDouble := 0;
     flagLedSingleActive := false;
     flagLedDoubleActive := false;
     button := Debounce16_new PIN_BUTTON logicLevel |}.

Definition double_report : string := ">>> DOUBLE PRESS detected! <<<".
Definition single_report : string := "Single press detected".

Definition with_button (b : Debounce16) (g : Globals) : Globals :=
  {| stateHeartbeat := stateHeartbeat g;
     timeBlink := timeBlink g;
     timeDebounce := timeDebounce g;
     timeLedSingle := timeLedSingle g;
     timeLedDouble := timeLedDouble g;
     flagLedSingleActive := flagLedSingleActive g;
     flagLedDoubleActive := flagLedDoubleActive g;
     button := b |}.

Definition setup (LED_BUILTIN : Z) (g : Globals) : Globals * list Output :=
  let e := enableDoublePressDetection true (button g) in
  let w := setDoublePressWindow WINDOW_DOUBLE_PRESS (object e) in
  (with_button (object w) g,
   [SerialBegin 115200;
    SerialPrintln EmptyString;
    SerialPrintln "Debounce16 Library - Double Press Detection";
    SerialPrintln "============================================";
    SerialPrintln "- Single press = LED 1 (green)";
    SerialPrintln "- Double press = LED 2 (red)";
    SerialPrintln "- Double-press window: 300ms";
    SerialPrintln "============================================";
    SerialPrintln EmptyString;
    PinMode PIN_LED_SINGLE OUTPUT;
    PinMode PIN_LED_DOUBLE OUTPUT;
    PinMode LED_BUILTIN OUTPUT;
    DigitalWrite PIN_LED_SINGLE false;
    DigitalWrite PIN_LED_DOUBLE false]
     ++ map Invoked (invoked e) ++ map Invoked (invoked w)
     ++ [SerialPrintln "Double-press detection enabled"]).

Definition loop (LED_BUILTIN : Z) (i : Iteration) (g : Globals)
  : Globals * list Output :=
  let now := currentMillis i in
  (* update the debounce state *)
  let '(timeDebounce1, button1, out1) :=
    if INTERVAL_DEBOUNCE <=? to_u32 (now - timeDebounce g) then
      let r := update (pinLevel i) (updateMillis i) (button g) in
      (now, object r, map Invoked (invoked r))
    else (timeDebounce g, button g, []) in
  (* check for the double-press event *)
  let dp := isDoublePressed button1 in
  let '(timeLedDouble2, flagDouble2, out2) :=
    if result dp then
      (now, true,
       [DigitalWrite PIN_LED_DOUBLE true; SerialPrintln double_report])
    else (timeLedDouble g, flagLedDoubleActive g, []) in
  (* check for a single press *)
  let cc := getClickCount (object dp) in
  let '(timeLedSingle3, flagSingle3, out3) :=
    if result cc =? 1 then
      (now, true,
       [DigitalWrite PIN_LED_SINGLE true; SerialPrintln single_report])
    else (timeLedSingle g, flagLedSingleActive g, []) in
  (* turn the single-press LED off after the feedback duration *)
  let '(flagSingle4, out4) :=
    if flagSingle3 && (DURATION_LED_FEEDBACK <=? to_u32 (now - timeLedSingle3))
    then (false, [DigitalWrite PIN_LED_SINGLE false])
    else (flagSingle3, []) in
  (* turn the double-press LED off after the feedback duration *)
  let '(flagDouble5, out5) :=
    if flagDouble2 && (DURATION_LED_FEEDBACK <=? to_u32 (now - timeLedDouble2))
    then (false, [DigitalWrite PIN_LED_DOUBLE false])
    else (flagDouble2, []) in
  (* heartbeat *)
  let '(timeBlink6, stateHeartbeat6, out6) :=
    if INTERVAL_BLINK <=? to_u32 (now - timeBlink g) then
      (now, negb (stateHeartbeat g),
       [DigitalWrite LED_BUILTIN (negb (stateHeartbeat g))])
    else (timeBlink g, stateHeartbeat g, []) in
  ({| stateHeartbeat := stateHeartbeat6;
      timeBlink := timeBlink6;
      timeDebounce := timeDebounce1;
      timeLedSingle := timeLedSingle3;
      timeLedDouble := timeLedDouble2;
      flagLedSingleActive := flagSingle4;
      flagLedDoubleActive := flagDouble5;
      button := object cc |},
   out1 ++ map Invoked (invoked dp) ++ out2
     ++ map Invoked (invoked cc) ++ out3 ++ out4 ++ out5 ++ out6).

(** [setup], then [loop] run once per iteration. *)
Fixpoint loops (LED_BUILTIN : Z) (its : list Iteration) (g : Globals)
  : Globals * list Output :=
  match its with
  | [] => (g, [])
  | i :: rest =>
    let '(g1, out1) := loop LED_BUILTIN i g in
    let '(g2, out2) := loops LED_BUILTIN rest g1 in
    (g2, out1 ++ out2)
  end.

Definition run (LED_BUILTIN : Z) (its : list Iteration)
  : Globals * list Output :=
  let '(g0, out0) := setup LED_BUILTIN globals in
  let '(g1, out1) := loops LED_BUILTIN its g0 in
  (g1, out0 ++ out1).

End DoublePressDetection.

(** What the double-press sketch would show of a double press: the
    double-press LED switched on, or the double-press report. *)
Definition double_press_signal (o : Output) : bool :=
  match o with
  | SerialPrintln s => String.eqb s DoublePressDetection.double_report
  | DigitalWrite pin true => pin =? DoublePressDetection.PIN_LED_DOUBLE
  | _ => false
  end.

(** * Properties *)

(** ** Proof tools *)

#[local] Arguments to_u16 : simpl never.
#[local] Arguments to_u32 : simpl never.
#[local] Arguments shift_in : simpl never.
#[local] Arguments Z.land : simpl never.
#[local] Arguments Z.lor : simpl never.
#[local] Arguments Z.shiftl : simpl never.
#[local] Arguments Z.eqb : simpl never.
#[local] Arguments Z.leb : simpl never.
#[local] Arguments Z.ltb : simpl never.
#[local] Arguments Z.sub : simpl never.

(** Expose the member functions down to the primitives of the monad. *)
Ltac unfold_ops :=
  unfold call, void, boolean, update, updateStateMachine, isPressed,
    isReleased, isDown, isUp, enableDoublePressDetection,
    setDoublePressWindow, enableLongPressDetection, setLongPressThreshold,
    isDoublePressed, isLongPressed, getClickCount, onPress, onRelease,
    onDoublePress, onLongPressStart, onLongPressEnd, resetState,
    triggerCallback, readButtonRaw, bind, ret, gets, modify, invoke,
    result, object, invoked in *.

(** Case analysis on the innermost test of the goal, on a callback slot or
    on the state of the machine, until none is left. *)
Ltac split_ifs :=
  repeat (match goal with
          | |- context [if ?c then _ else _] =>
            lazymatch c with
            | context [if _ then _ else _] => fail
            | _ => destruct c eqn:?
            end
          | |- context [match ?c with Some _ => _ | None => _ end] =>
            is_var c; destruct c
          | |- context [match ?c with STATE_IDLE => _ | _ => _ end] =>
            is_var c; destruct c
          end; cbn in *).

Ltac run_ops := unfold_ops; cbn in *; split_ifs.

(** Use the outcome of a test in the other hypotheses that mention it. *)
Ltac use_tests :=
  repeat match goal with
         | H : ?x = ?b, H' : context [?x] |- _ =>
           lazymatch b with true => idtac | false => idtac end;
           lazymatch x with true => fail | false => fail | _ => idtac end;
           rewrite H in H'; cbn in H'
         end.

Ltac settle := cbn in *; use_tests; try congruence.

(** Decide the two pattern tests and the two guards, then run. *)
Ltac run_machine :=
  unfold_ops; cbn in *;
  try match goal with
      | |- context [Z.land ?h MASK_PRESS =? PATTERN_PRESS] =>
        destruct (Z.land h MASK_PRESS =? PATTERN_PRESS) eqn:?
      end;
  try match goal with
      | |- context [Z.land ?h MASK_RELEASE =? PATTERN_RELEASE] =>
        destruct (Z.land h MASK_RELEASE =? PATTERN_RELEASE) eqn:?
      end;
  cbn in *; split_ifs.

(** Name the members of an object. *)
Ltac members d :=
  destruct d as [h pin lvl st te tp edp elp win thr cnt fdp flp fpp frp
                 cbp cbr cbd cbs cbe].

(** ** The shift register *)

Lemma shift_in_range h b : 0 <= shift_in h b < 2 ^ 16.
Proof. unfold shift_in, to_u16. apply Z.mod_pos_bound. lia. Qed.

Lemma b2z_high_bit b i : 0 < i -> Z.testbit (Z.b2z b) i = false.
Proof.
  intros Hi. destruct b; cbn.
  - apply Z.bits_above_log2; cbn; lia.
  - apply Z.testbit_0_l.
Qed.

Lemma shift_in_bit0 h b : Z.testbit (shift_in h b) 0 = b.
Proof.
  unfold shift_in, to_u16.
  rewrite Z.mod_pow2_bits_low by lia.
  rewrite Z.lor_spec, Z.shiftl_spec by lia.
  cbn. destruct b; reflexivity.
Qed.

Lemma shift_in_bitS h b i :
  0 < i < 16 -> Z.testbit (shift_in h b) i = Z.testbit h (i - 1).
Proof.
  intros Hi. unfold shift_in, to_u16.
  rewrite Z.mod_pow2_bits_low by lia.
  rewrite Z.lor_spec, Z.shiftl_spec, b2z_high_bit by lia.
  apply orb_false_r.
Qed.

Lemma u16_high_bit h n : 0 <= h < 2 ^ 16 -> 16 <= n -> Z.testbit h n = false.
Proof.
  intros Hh Hn. rewrite <- (Z.mod_small h (2 ^ 16)) by lia.
  apply Z.mod_pow2_bits_high. lia.
Qed.

Lemma all_ones_iff h :
  0 <= h < 2 ^ 16 ->
  (h = PATTERN_DOWN <-> forall i, 0 <= i < 16 -> Z.testbit h i = true).
Proof.
  intros Hh. change PATTERN_DOWN with (Z.ones 16). split.
  - intros -> i Hi. apply Z.ones_spec_low. lia.
  - intros Hb. apply Z.bits_inj'. intros n Hn.
    destruct (Z.lt_ge_cases n 16) as [Hlt | Hge].
    + rewrite Hb, Z.ones_spec_low by lia. reflexivity.
    + rewrite Z.ones_spec_high, u16_high_bit by lia. reflexivity.
Qed.

Lemma all_zeros_iff h :
  0 <= h < 2 ^ 16 ->
  (h = PATTERN_UP <-> forall i, 0 <= i < 16 -> Z.testbit h i = false).
Proof.
  intros Hh. unfold PATTERN_UP. split.
  - intros -> i Hi. apply Z.testbit_0_l.
  - intros Hb. apply Z.bits_inj'. intros n Hn.
    rewrite Z.testbit_0_l.
    destruct (Z.lt_ge_cases n 16) as [Hlt | Hge].
    + apply Hb. lia.
    + apply u16_high_bit; lia.
Qed.

(** A mask test [h & m == m] holds when every bit of [m] is set in [h]. *)
Lemma land_mask_iff h m :
  Z.land h m = m <->
  forall i, 0 <= i -> Z.testbit m i = true -> Z.testbit h i = true.
Proof.
  split.
  - intros H i Hi Hm. rewrite <- H, Z.land_spec in Hm.
    apply andb_true_iff in Hm. tauto.
  - intros H. apply Z.bits_inj'. intros n Hn.
    rewrite Z.land_spec. destruct (Z.testbit m n) eqn:Hm.
    + rewrite (H n Hn Hm). reflexivity.
    + apply andb_false_r.
Qed.

Lemma press_pattern_iff h :
  press_pattern h = true <-> forall i, 0 <= i < 6 -> Z.testbit h i = true.
Proof.
  unfold press_pattern. rewrite Z.eqb_eq.
  change PATTERN_PRESS with (Z.ones 6). change MASK_PRESS with (Z.ones 6).
  rewrite land_mask_iff. split.
  - intros H i Hi. apply H; [lia|]. apply Z.ones_spec_low. lia.
  - intros H i Hi Hm. apply Z.ones_spec_iff in Hm; [|lia]. apply H. lia.
Qed.

Lemma release_pattern_iff h :
  release_pattern h = true <->
  forall i, 10 <= i < 16 -> Z.testbit h i = true.
Proof.
  unfold release_pattern. rewrite Z.eqb_eq.
  change PATTERN_RELEASE with (Z.shiftl (Z.ones 6) 10).
  change MASK_RELEASE with (Z.shiftl (Z.ones 6) 10).
  rewrite land_mask_iff. split.
  - intros H i Hi. apply H; [lia|].
    rewrite Z.shiftl_spec by lia. apply Z.ones_spec_low. lia.
  - intros H i Hi Hm. rewrite Z.shiftl_spec in Hm by lia.
    apply Z.ones_spec_iff in Hm; [|lia]. apply H. lia.
Qed.

(** ** What a tick and a poll do to the object *)

Lemma calls_cons c cs d :
  calls (c :: cs) d =
  (result (call c d) :: result (calls cs (object (call c d))),
   object (calls cs (object (call c d))),
   invoked (call c d) ++ invoked (calls cs (object (call c d)))).
Proof.
  cbn [calls]. unfold bind, ret, result, object, invoked.
  destruct (call c d) as [[r d1] t1]. cbn.
  destruct (calls cs d1) as [[rs d2] t2]. cbn.
  rewrite app_nil_r. reflexivity.
Qed.

Lemma calls_app cs1 cs2 d :
  calls (cs1 ++ cs2) d =
  (result (calls cs1 d) ++ result (calls cs2 (object (calls cs1 d))),
   object (calls cs2 (object (calls cs1 d))),
   invoked (calls cs1 d) ++ invoked (calls cs2 (object (calls cs1 d)))).
Proof.
  revert d. induction cs1 as [|c cs1 IH]; intros d.
  - cbn. unfold result, object, invoked. cbn.
    destruct (calls cs2 d) as [[rs d'] t]. reflexivity.
  - rewrite <- app_comm_cons, !calls_cons, IH.
    unfold result, object, invoked. cbn.
    rewrite app_assoc. reflexivity.
Qed.

Lemma call_update raw t d :
  call (CallUpdate raw t) d
  = (Void, object (update raw t d), invoked (update raw t d)).
Proof.
  cbn [call]. unfold void, bind, ret, object, invoked.
  destruct (update raw t d) as [[u d1] t1]. cbn.
  rewrite app_nil_r. reflexivity.
Qed.

Lemma update_settings raw t d :
  settings (object (update raw t d)) = settings d.
Proof. members d. run_ops; reflexivity. Qed.

Lemma update_history raw t d :
  historyButton (object (update raw t d))
  = shift_in (historyButton d) (sample_of (levelActive d) raw).
Proof. members d. unfold sample_of. run_ops; reflexivity. Qed.

Lemma update_levelActive raw t d :
  levelActive (object (update raw t d)) = levelActive d.
Proof.
  pose proof (update_settings raw t d) as H. unfold settings in H.
  congruence.
Qed.

Lemma feed_cons x inputs d :
  object (calls (feed (x :: inputs)) d)
  = object (calls (feed inputs) (object (update (fst x) (snd x) d))).
Proof.
  change (feed (x :: inputs))
    with (CallUpdate (fst x) (snd x) :: feed inputs).
  rewrite calls_cons, call_update. reflexivity.
Qed.

Lemma feed_levelActive inputs d :
  levelActive (object (calls (feed inputs) d)) = levelActive d.
Proof.
  revert d. induction inputs as [|x inputs IH]; intros d.
  - reflexivity.
  - rewrite feed_cons, IH. apply update_levelActive.
Qed.

Lemma feed_snoc inputs x d :
  object (calls (feed (inputs ++ [x])) d)
  = object (update (fst x) (snd x) (object (calls (feed inputs) d))).
Proof.
  unfold feed. rewrite map_app, calls_app. cbn [map].
  rewrite calls_cons, call_update. reflexivity.
Qed.

(** After any ticks, bit [i] of the history is the sample admitted [i]
    ticks before the last one. *)
Lemma feed_history_bit inputs : forall d i,
  (i < length inputs)%nat -> (i < 16)%nat ->
  Z.testbit (historyButton (object (calls (feed inputs) d))) (Z.of_nat i)
  = nth i (rev (samples_of (levelActive d) inputs)) false.
Proof.
  induction inputs as [|x inputs IH] using rev_ind; intros d i Hlen Hi.
  - cbn in Hlen. lia.
  - rewrite feed_snoc, update_history, feed_levelActive.
    unfold samples_of. rewrite map_app, rev_app_distr. cbn [map rev app].
    destruct i as [|i].
    + cbn [nth Z.of_nat]. apply shift_in_bit0.
    + rewrite shift_in_bitS by lia.
      replace (Z.of_nat (S i) - 1) with (Z.of_nat i) by lia.
      cbn [nth]. apply IH; [|lia].
      rewrite length_app in Hlen. cbn in Hlen. lia.
Qed.

Lemma feed_history_range x inputs d :
  0 <= historyButton (object (calls (feed (inputs ++ [x])) d)) < 2 ^ 16.
Proof. rewrite feed_snoc, update_history. apply shift_in_range. Qed.

(** ** Steady states: [isDown] and [isUp] *)

(** C6.  For every 16-bit history, [isDown] returns true if and only if all
    16 history bits are ON and [isUp] returns true if and only if all 16
    are OFF; neither changes the object.  The bits are the samples: after
    at least 16 ticks, [isDown] (resp. [isUp]) holds if and only if the last
    16 admitted samples were all ON (resp. all OFF). *)
Theorem C6_steady_down_up_iff_all_bits d :
  0 <= historyButton d < 2 ^ 16 ->
  (result (isDown d) = true <->
   forall i, 0 <= i < 16 -> Z.testbit (historyButton d) i = true) /\
  (result (isUp d) = true <->
   forall i, 0 <= i < 16 -> Z.testbit (historyButton d) i = false) /\
  object (isDown d) = d /\ object (isUp d) = d /\
  forall inputs, (16 <= length inputs)%nat ->
    let d' := object (calls (feed inputs) d) in
    let recent i := nth i (rev (samples_of (levelActive d) inputs)) false in
    (result (isDown d') = true <->
     forall i, (i < 16)%nat -> recent i = true) /\
    (result (isUp d') = true <->
     forall i, (i < 16)%nat -> recent i = false).
Proof.
  intros Hd.
  assert (Hdown : forall e, 0 <= historyButton e < 2 ^ 16 ->
            (result (isDown e) = true <->
             forall i, 0 <= i < 16 -> Z.testbit (historyButton e) i = true)).
  { intros e He. rewrite <- all_ones_iff by exact He.
    unfold isDown, bind, gets, ret, result. cbn. apply Z.eqb_eq. }
  assert (Hup : forall e, 0 <= historyButton e < 2 ^ 16 ->
            (result (isUp e) = true <->
             forall i, 0 <= i < 16 -> Z.testbit (historyButton e) i = false)).
  { intros e He. rewrite <- all_zeros_iff by exact He.
    unfold isUp, bind, gets, ret, result. cbn. apply Z.eqb_eq. }
  split; [apply Hdown; exact Hd|]. split; [apply Hup; exact Hd|].
  split; [reflexivity|]. split; [reflexivity|].
  intros inputs Hlen. cbv zeta.
  destruct inputs as [|x inputs _] using rev_ind; [cbn in Hlen; lia|].
  pose proof (feed_history_range x inputs d) as Hr.
  rewrite (Hdown _ Hr), (Hup _ Hr).
  rewrite length_app in Hlen. cbn [length] in Hlen.
  split; split; intros H i Hi.
  - rewrite <- feed_history_bit by (rewrite ?length_app; cbn [length]; lia).
    apply H. lia.
  - replace i with (Z.of_nat (Z.to_nat i)) by lia.
    rewrite feed_history_bit by (rewrite ?length_app; cbn [length]; lia).
    apply H. lia.
  - rewrite <- feed_history_bit by (rewrite ?length_app; cbn [length]; lia).
    apply H. lia.
  - replace i with (Z.of_nat (Z.to_nat i)) by lia.
    rewrite feed_history_bit by (rewrite ?length_app; cbn [length]; lia).
    apply H. lia.
Qed.

Lemma C6_steady_down_up_witness :
  0 <= historyButton (Debounce16_new 17 true) < 2 ^ 16 /\
  (result (isUp (Debounce16_new 17 true)) = true <->
   forall i, 0 <= i < 16 ->
     Z.testbit (historyButton (Debounce16_new 17 true)) i = false).
Proof.
  assert (H : 0 <= historyButton (Debounce16_new 17 true) < 2 ^ 16)
    by (cbn; unfold PATTERN_UP; lia).
  split; [exact H|].
  exact (proj1 (proj2 (C6_steady_down_up_iff_all_bits _ H))).
Defined.

(** ** The release edge: [isReleased] *)

Lemma isReleased_result d :
  result (isReleased d)
  = release_pattern (historyButton d) && negb (flagReleaseProcessed d).
Proof. members d. unfold release_pattern. run_ops; reflexivity. Qed.

Lemma isReleased_guard d :
  flagReleaseProcessed (object (isReleased d))
  = release_pattern (historyButton d).
Proof.
  members d. unfold release_pattern. run_ops; try reflexivity.
  all: destruct (Z.land h MASK_RELEASE =? PATTERN_RELEASE), frp;
    cbn in *; congruence.
Qed.

(** C1.  The release test of the code looks at bits [15:10] only.  For
    every object, [isReleased] returns true if and only if bits [15:10] of
    the history are all ON and the one-shot guard is not set, whatever bits
    [9:0] are; when bits [15:10] are not all ON the guard re-arms.  So the
    edge also fires with bits [9:0] ON: after sixteen ON samples the history
    is [0xFFFF], [isDown] holds and [isReleased] fires all the same. *)
Theorem C1_release_pattern_ignores_low_bits d :
  (result (isReleased d) = true <->
   (forall i, 10 <= i < 16 -> Z.testbit (historyButton d) i = true) /\
   flagReleaseProcessed d = false) /\
  (flagReleaseProcessed (object (isReleased d)) = true <->
   forall i, 10 <= i < 16 -> Z.testbit (historyButton d) i = true) /\
  let held := object (calls (ticks 16 true 1) (Debounce16_new 17 true)) in
  historyButton held = 0xFFFF /\
  result (isDown held) = true /\
  result (isReleased held) = true.
Proof.
  split; [|split].
  - rewrite isReleased_result, andb_true_iff, release_pattern_iff,
      negb_true_iff. reflexivity.
  - rewrite isReleased_guard. apply release_pattern_iff.
  - vm_compute. repeat split.
Qed.

(** ** One-shot and counter reads *)

(** C8.  For every object whose click counter holds a [uint8_t] value,
    [getClickCount] returns the counter and invokes no handler.  If the
    machine is idle the counter is 0 afterwards; if the machine is not
    idle, or the counter is already 0, the object is left exactly as it
    was.  In every case all members other than the counter keep their
    values. *)
Theorem C8_getClickCount_resets_only_in_idle d :
  0 <= countClick d < 2 ^ 8 ->
  let r := getClickCount d in
  result r = countClick d /\
  invoked r = [] /\
  (stateButton d = STATE_IDLE -> countClick (object r) = 0) /\
  (stateButton d <> STATE_IDLE -> object r = d) /\
  (countClick d = 0 -> object r = d) /\
  settings (object r) = settings d /\
  stateButton (object r) = stateButton d /\
  historyButton (object r) = historyButton d /\
  (timeEvent (object r), timePress (object r))
  = (timeEvent d, timePress d) /\
  (flagDoublePressed (object r), flagLongPressed (object r),
   flagPressProcessed (object r), flagReleaseProcessed (object r))
  = (flagDoublePressed d, flagLongPressed d,
     flagPressProcessed d, flagReleaseProcessed d).
Proof.
  members d. cbn [countClick stateButton]. intros Hc. cbv zeta.
  unfold_ops. cbn.
  destruct (Z.ltb_spec 0 cnt) as [Hpos|Hzero]; destruct st; cbn;
    repeat split; intros; try reflexivity; try congruence; try lia;
    try (exfalso; apply H; reflexivity);
    try (assert (cnt = 0) by lia; subst cnt; reflexivity).
Qed.

Lemma C8_getClickCount_witness :
  let idle := mkDebounce16 0 17 true STATE_IDLE 0 0 true false 300 1000 1
                false false false false None None None None None in
  let waiting := object (calls first_click fresh) in
  (0 <= countClick idle < 2 ^ 8 /\ stateButton idle = STATE_IDLE) /\
  result (getClickCount idle) = 1 /\
  countClick (object (getClickCount idle)) = 0 /\
  (0 <= countClick waiting < 2 ^ 8
   /\ stateButton waiting = STATE_RELEASE_FIRST) /\
  result (getClickCount waiting) = 1 /\
  object (getClickCount waiting) = waiting.
Proof.
  cbv zeta.
  set (idle := mkDebounce16 0 17 true STATE_IDLE 0 0 true false 300 1000 1
                 false false false false None None None None None).
  set (waiting := object (calls first_click fresh)).
  assert (Hi : 0 <= countClick idle < 2 ^ 8) by (cbn; lia).
  assert (Hw : 0 <= countClick waiting < 2 ^ 8)
    by (vm_compute; split; [discriminate|reflexivity]).
  pose proof (C8_getClickCount_resets_only_in_idle idle Hi) as Ti.
  pose proof (C8_getClickCount_resets_only_in_idle waiting Hw) as Tw.
  cbv zeta in Ti, Tw.
  destruct Ti as (Ri & _ & Ii & _). destruct Tw as (Rw & _ & _ & Nw & _).
  split; [split; [exact Hi|reflexivity]|].
  split; [exact Ri|]. split; [apply Ii; reflexivity|].
  split; [split; [exact Hw|vm_compute; reflexivity]|].
  split; [rewrite Rw; vm_compute; reflexivity|].
  apply Nw. vm_compute. discriminate.
Defined.

(** C9.  [isDoublePressed] returns the double-press flag and clears it,
    changing nothing else and invoking no handler; a second call right
    after it returns false and changes nothing.  So two calls in succession
    return true then false whenever the first returns true. *)
Theorem C9_isDoublePressed_read_clears d :
  let first := isDoublePressed d in
  let second := isDoublePressed (object first) in
  result first = flagDoublePressed d /\
  object first = (if flagDoublePressed d
                  then set_flagDoublePressed false d else d) /\
  invoked first = [] /\
  result second = false /\
  object second = object first /\
  invoked second = [].
Proof.
  members d.
  unfold_ops. cbn. destruct fdp; cbn; repeat split.
Qed.

(** ** The press edge: [isPressed] *)

Lemma isPressed_result d :
  result (isPressed d)
  = press_pattern (historyButton d) && negb (flagPressProcessed d).
Proof. members d. unfold press_pattern. run_ops; reflexivity. Qed.

Lemma isPressed_guard d :
  flagPressProcessed (object (isPressed d))
  = press_pattern (historyButton d).
Proof.
  members d. unfold press_pattern. run_ops; try reflexivity.
  all: destruct (Z.land h MASK_PRESS =? PATTERN_PRESS), fpp;
    cbn in *; congruence.
Qed.

Lemma isPressed_frame d :
  settings (object (isPressed d)) = settings d /\
  historyButton (object (isPressed d)) = historyButton d /\
  stateButton (object (isPressed d)) = stateButton d.
Proof. members d. run_ops; repeat split. Qed.

(** With both features disabled a tick only shifts the history. *)
Lemma update_inert raw t d :
  machine_runs d = false ->
  update raw t d
  = (tt, set_historyButton
           (shift_in (historyButton d) (sample_of (levelActive d) raw)) d,
     []).
Proof.
  members d. unfold machine_runs, sample_of, shift_in. cbn. intros H.
  destruct edp, elp; try discriminate H.
  unfold_ops. cbn. destruct lvl; reflexivity.
Qed.

Lemma poll_presses_cons x rest d :
  result (poll_presses (x :: rest) d)
  = result (isPressed (object (update (fst x) (snd x) d)))
    :: result (poll_presses rest
                 (object (isPressed (object (update (fst x) (snd x) d))))).
Proof.
  cbn [poll_presses]. unfold bind, ret, result, object.
  destruct (update (fst x) (snd x) d) as [[u d1] t1]. cbn [fst snd].
  destruct (isPressed d1) as [[p d2] t2]. cbn [fst snd].
  destruct (poll_presses rest d2) as [[ps d3] t3]. reflexivity.
Qed.

Lemma tracks_shift_in (r : nat) (h : Z) (b : bool) :
  tracks r h -> tracks (if b then S r else O) (shift_in h b).
Proof.
  intros [Hon Hoff]. destruct b; split.
  - intros i Hi. destruct (Z.eq_dec i 0) as [->|Hne].
    + apply shift_in_bit0.
    + rewrite shift_in_bitS by lia. apply Hon. lia.
  - intros Hr. rewrite shift_in_bitS by lia.
    replace (Z.of_nat (S r) - 1) with (Z.of_nat r) by lia.
    apply Hoff. lia.
  - cbn. intros i Hi. lia.
  - intros _. apply shift_in_bit0.
Qed.

Lemma tracks_press_pattern r h :
  tracks r h -> press_pattern h = Nat.leb 6 r.
Proof.
  intros [Hon Hoff]. destruct (Nat.leb 6 r) eqn:Hr.
  - apply Nat.leb_le in Hr. apply press_pattern_iff.
    intros i Hi. apply Hon. lia.
  - apply Nat.leb_gt in Hr. destruct (press_pattern h) eqn:Hp; [|reflexivity].
    rewrite press_pattern_iff in Hp.
    rewrite Hp in Hoff by lia. discriminate Hoff. exact Hr.
Qed.

Lemma poll_presses_sixth inputs : forall d r,
  machine_runs d = false ->
  tracks r (historyButton d) ->
  flagPressProcessed d = Nat.leb 6 r ->
  result (poll_presses inputs d)
  = sixth_of_run r (samples_of (levelActive d) inputs).
Proof.
  induction inputs as [|x rest IH]; intros d r Hoff Htr Hfl.
  - reflexivity.
  - rewrite poll_presses_cons. cbn [samples_of map sixth_of_run].
    set (b := sample_of (levelActive d) (fst x)).
    set (r' := if b then S r else O).
    set (d1 := object (update (fst x) (snd x) d)).
    assert (Hd1 : d1 = set_historyButton (shift_in (historyButton d) b) d).
    { unfold d1. rewrite update_inert by exact Hoff. reflexivity. }
    assert (Hh1 : historyButton d1 = shift_in (historyButton d) b).
    { rewrite Hd1. members d. reflexivity. }
    assert (Htr1 : tracks r' (historyButton d1)).
    { rewrite Hh1. apply tracks_shift_in. exact Htr. }
    assert (Hf1 : flagPressProcessed d1 = Nat.leb 6 r).
    { rewrite Hd1, <- Hfl. members d. reflexivity. }
    assert (Hs1 : settings d1 = settings d).
    { rewrite Hd1. members d. reflexivity. }
    destruct (isPressed_frame d1) as (Hs2 & Hh2 & _).
    f_equal.
    + rewrite isPressed_result, Hf1, (tracks_press_pattern r') by exact Htr1.
      subst r'. destruct b.
      * destruct (Nat.eqb (S r) 6) eqn:E.
        -- apply Nat.eqb_eq in E. injection E as ->. reflexivity.
        -- apply Nat.eqb_neq in E.
           destruct (Nat.leb 6 (S r)) eqn:E1; [|reflexivity].
           apply Nat.leb_le in E1.
           replace (Nat.leb 6 r) with true; [reflexivity|].
           symmetry. apply Nat.leb_le. lia.
      * reflexivity.
    + fold (samples_of (levelActive d) rest).
      replace (levelActive d)
        with (levelActive (object (isPressed d1))).
      * apply IH.
        -- unfold machine_runs in *. unfold settings in Hs1, Hs2. congruence.
        -- rewrite Hh2. exact Htr1.
        -- rewrite isPressed_guard. apply tracks_press_pattern. exact Htr1.
      * unfold settings in Hs1, Hs2. congruence.
Qed.

Lemma fired_cons p polls :
  fired (p :: polls) = ((if p then 1 else 0) + fired polls)%nat.
Proof. unfold fired. cbn. destruct p; reflexivity. Qed.

Lemma long_runs_true r rest :
  long_runs r (true :: rest) = long_runs (S r) rest.
Proof. reflexivity. Qed.

Lemma long_runs_false r rest :
  long_runs r (false :: rest)
  = ((if Nat.leb 6 r then 1 else 0) + long_runs 0 rest)%nat.
Proof.
  unfold long_runs. cbn [runs_from]. rewrite filter_app, length_app.
  f_equal. destruct r as [|r]; [reflexivity|]. cbn [Nat.eqb filter].
  destruct (Nat.leb 6 (S r)); reflexivity.
Qed.

Lemma long_runs_nil r : long_runs r [] = if Nat.leb 6 r then 1%nat else 0%nat.
Proof.
  unfold long_runs. cbn [runs_from]. destruct r as [|r]; [reflexivity|].
  cbn [Nat.eqb filter]. destruct (Nat.leb 6 (S r)); reflexivity.
Qed.

(** The sixth samples of the runs are as many as the runs of six or more;
    a run already six long when the list starts has had its edge. *)
Lemma fired_sixth_of_run samples : forall r,
  (fired (sixth_of_run r samples) + (if Nat.leb 6 r then 1 else 0))%nat
  = long_runs r samples.
Proof.
  induction samples as [|b rest IH]; intros r.
  - rewrite long_runs_nil. reflexivity.
  - cbn [sixth_of_run]. rewrite fired_cons. destruct b.
    + rewrite long_runs_true, <- IH.
      destruct (Nat.eqb_spec (S r) 6) as [E|E],
        (Nat.leb_spec 6 r) as [E1|E1], (Nat.leb_spec 6 (S r)) as [E2|E2];
        lia.
    + rewrite long_runs_false, <- IH. cbn [Nat.eqb Nat.leb]. lia.
Qed.

(** What [sixth_of_run] says of one run: an OFF sample gives false and
    ends the run; over [n] ON samples that extend a run of [r], the only
    true is at the sample that makes the run six long. *)
Lemma sixth_of_run_off r rest :
  sixth_of_run r (false :: rest) = false :: sixth_of_run 0 rest.
Proof. reflexivity. Qed.

Lemma sixth_of_run_on n : forall r rest,
  sixth_of_run r (repeat true n ++ rest)
  = map (fun j => Nat.eqb (r + S j) 6) (seq 0 n)
    ++ sixth_of_run (r + n) rest.
Proof.
  induction n as [|n IH]; intros r rest.
  - cbn [repeat app seq map]. rewrite Nat.add_0_r. reflexivity.
  - cbn [repeat app seq map sixth_of_run]. rewrite IH.
    rewrite <- seq_shift, map_map.
    replace (r + 1)%nat with (S r) by lia.
    replace (S r + n)%nat with (r + S n)%nat by lia.
    do 2 f_equal. apply map_ext. intros j.
    replace (S r + S j)%nat with (r + S (S j))%nat by lia. reflexivity.
Qed.

Lemma sixth_of_run_fresh_run n rest :
  sixth_of_run 0 (repeat true n ++ false :: rest)
  = map (fun j => Nat.eqb j 5) (seq 0 n) ++ false :: sixth_of_run 0 rest.
Proof. rewrite sixth_of_run_on. reflexivity. Qed.

Local Open Scope nat_scope.

(** A poll of the run counter is true exactly at a sixth sample. *)
Lemma sixth_of_run_nth samples : forall r i,
  nth i (sixth_of_run r samples) false = true <->
  (forall j, j <= 5 -> j <= i -> nth (i - j) samples false = true) /\
  (6 <= i /\ nth (i - 6) samples false = false \/ i < 6 /\ r + S i = 6).
Proof.
  induction samples as [|b rest IH]; intros r i.
  - cbn [sixth_of_run]. split.
    + destruct i; discriminate.
    + intros [H _]. specialize (H 0 ltac:(lia) ltac:(lia)).
      destruct (i - 0); discriminate.
  - cbn [sixth_of_run]. destruct i as [|i].
    + cbn [nth]. rewrite Nat.eqb_eq. split.
      * intros E. destruct b; [|discriminate]. split.
        -- intros j _ Hj. replace (0 - j) with 0 by lia. reflexivity.
        -- right. lia.
      * intros [H [[H6 _]|[_ Hr]]]; [lia|].
        specialize (H 0 ltac:(lia) ltac:(lia)). cbn in H. subst b. lia.
    + cbn [nth]. rewrite IH. split.
      * intros [A B].
        assert (Hb : i <= 4 -> b = true).
        { intros Hi. destruct B as [[B _]|[_ B]]; [lia|].
          destruct b; [reflexivity|]. lia. }
        split.
        -- intros j Hj Hji. destruct (Nat.eq_dec j (S i)) as [->|Hne].
           ++ rewrite Nat.sub_diag. cbn [nth]. apply Hb. lia.
           ++ replace (S i - j) with (S (i - j)) by lia. cbn [nth].
              apply A; lia.
        -- destruct B as [[B1 B2]|[B1 B2]].
           ++ left. split; [lia|].
              replace (S i - 6) with (S (i - 6)) by lia. exact B2.
           ++ destruct b.
              ** right. lia.
              ** left. assert (i = 5) by lia. subst i. split; [lia|].
                 reflexivity.
      * intros [A B]. split.
        -- intros j Hj Hji. specialize (A j Hj ltac:(lia)).
           replace (S i - j) with (S (i - j)) in A by lia. exact A.
        -- destruct B as [[B1 B2]|[B1 B2]].
           ++ destruct (Nat.eq_dec i 5) as [->|Hne].
              ** cbn in B2. subst b. right. lia.
              ** left. split; [lia|].
                 replace (S i - 6) with (S (i - 6)) in B2 by lia. exact B2.
           ++ right. split; [lia|].
              specialize (A (S i) ltac:(lia) ltac:(lia)).
              rewrite Nat.sub_diag in A. cbn in A. subst b. lia.
Qed.

Lemma sixth_of_run_sixth_sample samples i :
  nth i (sixth_of_run 0 samples) false = true <-> sixth_sample samples i.
Proof.
  rewrite sixth_of_run_nth. unfold sixth_sample. split.
  - intros [A B]. split; [lia|]. split.
    + intros j Hj. apply A; lia.
    + intros H6. destruct B as [[_ B]|B]; [exact B|lia].
  - intros (H5 & A & B). split.
    + intros j Hj _. apply A. exact Hj.
    + destruct (Nat.le_gt_cases 6 i) as [H6|H6].
      * left. split; [exact H6|]. apply B. exact H6.
      * right. lia.
Qed.

Local Close Scope nat_scope.

(** C3.  A fresh object is ticked with any inputs and [isPressed] is polled
    after every tick.  The poll after sample [i] returns true if and only
    if sample [i] is the sixth of a maximal run of ON samples; every other
    poll returns false: never during the first five samples of a run,
    never again while the run lasts, never while released.  So the polls
    return true exactly once per maximal run of at least six ON samples. *)
Theorem C3_press_edge_once_per_run pin activeLevel inputs :
  let polls := result (poll_presses inputs (Debounce16_new pin activeLevel)) in
  let samples := samples_of activeLevel inputs in
  (forall i, nth i polls false = true <-> sixth_sample samples i) /\
  polls = sixth_of_run 0 samples /\
  fired polls = long_runs 0 samples.
Proof.
  cbv zeta.
  assert (H : result (poll_presses inputs (Debounce16_new pin activeLevel))
              = sixth_of_run 0 (samples_of activeLevel inputs)).
  { apply (poll_presses_sixth inputs (Debounce16_new pin activeLevel) 0).
    - reflexivity.
    - split.
      + cbn. intros i Hi. lia.
      + intros _. reflexivity.
    - reflexivity. }
  rewrite H. split; [|split; [reflexivity|]].
  - intros i. apply sixth_of_run_sixth_sample.
  - rewrite <- fired_sixth_of_run. cbn. lia.
Qed.

(** ** The click counter is zero in the idle state *)

Lemma call_keeps_idle_count c d :
  (stateButton d = STATE_IDLE -> countClick d = 0) ->
  stateButton (object (call c d)) = STATE_IDLE ->
  countClick (object (call c d)) = 0.
Proof.
  intros Hinv. destruct c; members d; run_ops; intros; cbn in *;
    auto; discriminate.
Qed.

Lemma calls_keep_idle_count cs : forall d,
  (stateButton d = STATE_IDLE -> countClick d = 0) ->
  stateButton (object (calls cs d)) = STATE_IDLE ->
  countClick (object (calls cs d)) = 0.
Proof.
  induction cs as [|c cs IH]; intros d Hinv.
  - exact Hinv.
  - rewrite calls_cons. apply IH. apply call_keeps_idle_count. exact Hinv.
Qed.

(** C7.  Whatever a client has called since construction (ticks, queries,
    configuration, registration), the click counter is 0 whenever the
    machine is in the idle state; and right after
    [enableDoublePressDetection(false)] the click counter is 0. *)
Theorem C7_idle_click_count_zero pin activeLevel cs :
  let d := object (calls cs (Debounce16_new pin activeLevel)) in
  (stateButton d = STATE_IDLE -> countClick d = 0) /\
  countClick (object (enableDoublePressDetection false d)) = 0.
Proof.
  cbv zeta. split.
  - apply calls_keep_idle_count. reflexivity.
  - generalize (object (calls cs (Debounce16_new pin activeLevel))).
    clear. intros d. members d. reflexivity.
Qed.

Lemma C7_idle_click_count_zero_witness :
  let d := object (calls ([CallEnableDoublePressDetection true]
                            ++ ticks 10 true 1 ++ ticks 400 false 11)
                     (Debounce16_new 17 true)) in
  stateButton d = STATE_IDLE /\ countClick d = 0.
Proof.
  cbv zeta. split.
  - vm_compute. reflexivity.
  - apply (proj1 (C7_idle_click_count_zero 17 true _)).
    vm_compute. reflexivity.
Defined.

(** The double-press flag is set and cleared within one tick
    ([resetState] follows at once), so a client never finds it set. *)
Lemma call_keeps_double_press_flag_clear c d :
  flagDoublePressed d = false ->
  flagDoublePressed (object (call c d)) = false.
Proof.
  intros Hinv. destruct c; members d; run_ops; cbn in *;
    auto; discriminate.
Qed.

Lemma double_press_flag_never_set cs : forall d,
  flagDoublePressed d = false ->
  flagDoublePressed (object (calls cs d)) = false.
Proof.
  induction cs as [|c cs IH]; intros d Hinv.
  - exact Hinv.
  - rewrite calls_cons. apply IH.
    apply call_keeps_double_press_flag_clear. exact Hinv.
Qed.

(** ** Edges polled by the machine are gone for the client *)

(** A tick is the shift followed, when a feature is enabled, by the state
    machine. *)
Lemma update_unfold raw t d :
  update raw t d
  = let d1 := set_historyButton
                (shift_in (historyButton d) (sample_of (levelActive d) raw))
                d in
    if machine_runs d then updateStateMachine t d1 else (tt, d1, []).
Proof.
  members d. unfold machine_runs, sample_of, shift_in, update, readButtonRaw.
  unfold bind, gets, modify, ret.
  destruct lvl, edp, elp; cbn -[updateStateMachine]; try reflexivity;
    match goal with
    | |- context [updateStateMachine ?t ?d] =>
      destruct (updateStateMachine t d) as [[[] d2] t2]
    end; reflexivity.
Qed.

Lemma machine_history t d :
  historyButton (object (updateStateMachine t d)) = historyButton d.
Proof. members d. run_ops; reflexivity. Qed.

Lemma machine_press_guard t d :
  flagPressProcessed (object (updateStateMachine t d))
  = match stateButton d with
    | STATE_IDLE | STATE_RELEASE_FIRST => press_pattern (historyButton d)
    | _ => flagPressProcessed d
    end.
Proof.
  members d. unfold press_pattern. destruct fpp; run_machine; settle.
Qed.

Lemma machine_release_guard t d :
  flagReleaseProcessed (object (updateStateMachine t d))
  = match stateButton d with
    | STATE_PRESS_FIRST | STATE_LONG_PRESS_ACTIVE =>
      release_pattern (historyButton d)
    | _ => flagReleaseProcessed d
    end.
Proof.
  members d. unfold release_pattern. destruct frp; run_machine; settle.
Qed.

Lemma machine_press_callback t d k :
  match stateButton d with
  | STATE_IDLE | STATE_RELEASE_FIRST => true
  | _ => false
  end = true ->
  press_pattern (historyButton d) && negb (flagPressProcessed d) = true ->
  callbackPress d = Some k ->
  In k (invoked (updateStateMachine t d)).
Proof.
  members d. unfold press_pattern. cbn. intros Hst Hp ->.
  destruct fpp; run_machine; settle;
    try discriminate; rewrite ?in_app_iff; cbn; auto.
Qed.

Lemma machine_release_callback t d k :
  match stateButton d with
  | STATE_PRESS_FIRST | STATE_LONG_PRESS_ACTIVE => true
  | _ => false
  end = true ->
  release_pattern (historyButton d) && negb (flagReleaseProcessed d) = true ->
  callbackRelease d = Some k ->
  In k (invoked (updateStateMachine t d)).
Proof.
  members d. unfold release_pattern. cbn. intros Hst Hp ->.
  destruct frp; run_machine; settle;
    try discriminate; rewrite ?in_app_iff; cbn; auto.
Qed.

(** C10.  Let an object be ticked once, and let [edge] say that the tick
    completes the press pattern with the one-shot guard not set.  When a
    feature is enabled and the machine is in a state that polls
    [isPressed] (idle or waiting for the second press), the tick itself
    consumes the edge: the press callback is invoked from within the tick
    and [isPressed] called after the tick returns false.  Otherwise, so
    with both features disabled, [isPressed] called after the tick returns
    the edge and the tick invokes nothing.  The same holds of [isReleased],
    which the machine polls in the states waiting for a release. *)
Theorem C10_machine_consumes_edges d stateRaw currentTime :
  let tick := update stateRaw currentTime d in
  let h' := shift_in (historyButton d) (sample_of (levelActive d) stateRaw) in
  let press_edge := press_pattern h' && negb (flagPressProcessed d) in
  let release_edge := release_pattern h' && negb (flagReleaseProcessed d) in
  result (isPressed (object tick))
  = press_edge && negb (machine_polls_press d) /\
  result (isReleased (object tick))
  = release_edge && negb (machine_polls_release d) /\
  (machine_polls_press d && press_edge = true ->
   forall h, callbackPress d = Some h -> In h (invoked tick)) /\
  (machine_polls_release d && release_edge = true ->
   forall h, callbackRelease d = Some h -> In h (invoked tick)) /\
  (machine_runs d = false -> invoked tick = []).
Proof.
  cbv zeta. rewrite isPressed_result, isReleased_result, update_unfold.
  cbv zeta. unfold machine_polls_press, machine_polls_release.
  set (d1 := set_historyButton _ d).
  assert (H1 : historyButton d1
               = shift_in (historyButton d)
                   (sample_of (levelActive d) stateRaw)
               /\ stateButton d1 = stateButton d
               /\ flagPressProcessed d1 = flagPressProcessed d
               /\ flagReleaseProcessed d1 = flagReleaseProcessed d
               /\ callbackPress d1 = callbackPress d
               /\ callbackRelease d1 = callbackRelease d).
  { subst d1. members d. repeat split. }
  destruct H1 as (Hh & Hst & Hfp & Hfr & Hcp & Hcr).
  destruct (machine_runs d); cbn [andb negb].
  - rewrite machine_history, machine_press_guard, machine_release_guard.
    rewrite Hh, Hst, Hfp, Hfr.
    split; [|split; [|split; [|split]]].
    + destruct (stateButton d), (press_pattern _), (flagPressProcessed d);
        reflexivity.
    + destruct (stateButton d), (release_pattern _), (flagReleaseProcessed d);
        reflexivity.
    + intros H k Hk. apply andb_true_iff in H. destruct H as [Hs He].
      apply machine_press_callback; rewrite ?Hst, ?Hh, ?Hfp, ?Hcp; assumption.
    + intros H k Hk. apply andb_true_iff in H. destruct H as [Hs He].
      apply machine_release_callback;
        rewrite ?Hst, ?Hh, ?Hfr, ?Hcr; assumption.
    + discriminate.
  - unfold object, invoked. cbn [fst snd]. rewrite Hh, Hfp, Hfr.
    rewrite !andb_true_r. repeat split; discriminate.
Qed.

Lemma C10_machine_consumes_edges_witness :
  let d := object (calls five_on fresh) in
  machine_polls_press d
  && (press_pattern
        (shift_in (historyButton d) (sample_of (levelActive d) true))
      && negb (flagPressProcessed d)) = true /\
  callbackPress d = Some press_handler /\
  In press_handler (invoked (update true 6 d)) /\
  result (isPressed (object (update true 6 d))) = false.
Proof.
  cbv zeta.
  set (d := object (calls five_on fresh)).
  assert (H : machine_polls_press d
              && (press_pattern
                    (shift_in (historyButton d)
                       (sample_of (levelActive d) true))
                  && negb (flagPressProcessed d)) = true)
    by (vm_compute; reflexivity).
  assert (Hcb : callbackPress d = Some press_handler)
    by (vm_compute; reflexivity).
  split; [exact H|]. split; [exact Hcb|]. split.
  - exact (proj1 (proj2 (proj2 (C10_machine_consumes_edges d true 6)))
             H press_handler Hcb).
  - vm_compute. reflexivity.
Defined.

(** ** Long press at a cadence of one tick per millisecond *)

Lemma ticks_app n m b t :
  ticks (n + m) b t = ticks n b t ++ ticks m b (t + Z.of_nat n).
Proof.
  revert t. induction n as [|n IH]; intros t.
  - cbn [ticks Nat.add app]. f_equal. lia.
  - cbn [ticks Nat.add app]. rewrite IH. do 3 f_equal. lia.
Qed.

(** Once the contact has been ON for sixteen ticks the machine is back in
    the idle state with the press guard set, and further ON ticks change
    nothing. *)
Lemma held_tick t :
  update true t (object (calls (long_hold 16) fresh))
  = (tt, object (calls (long_hold 16) fresh), []).
Proof. vm_compute. reflexivity. Qed.

Lemma held_ticks k : forall t,
  object (calls (ticks k true t) (object (calls (long_hold 16) fresh)))
  = object (calls (long_hold 16) fresh) /\
  invoked (calls (ticks k true t) (object (calls (long_hold 16) fresh)))
  = [].
Proof.
  induction k as [|k IH]; intros t.
  - split; reflexivity.
  - cbn [ticks]. rewrite calls_cons, call_update, held_tick.
    unfold object at 1 3, invoked at 1 2. cbn [fst snd app].
    apply IH.
Qed.

(** C5.  On the code the claim fails at the nominal cadence.  Long-press
    detection is enabled with threshold 1000 ms, all handlers are
    registered, and the contact is held ON for [16 + k] ticks, one per
    millisecond ([k = 1084] holds it for 1100 ms).  At the sixteenth tick
    the history is all ON, the release test (bits [15:10]) succeeds and
    the machine returns to idle, ten milliseconds after the press edge.
    Only the press and release handlers have been invoked, the
    long-press-start handler never is, and [isLongPressed] returns
    false. *)
Theorem C5_long_press_never_starts_at_1ms_cadence (k : nat) :
  let hold := calls (long_hold (16 + k)) fresh in
  invoked hold = [press_handler; release_handler] /\
  ~ In long_press_start_handler (invoked hold) /\
  stateButton (object hold) = STATE_IDLE /\
  result (isLongPressed (object hold)) = false.
Proof.
  cbv zeta.
  assert (H : calls (long_hold (16 + k)) fresh
              = (result (calls (long_hold (16 + k)) fresh),
                 object (calls (long_hold 16) fresh),
                 [press_handler; release_handler])).
  { unfold long_hold. rewrite ticks_app, !app_assoc.
    rewrite calls_app. rewrite <- !app_assoc.
    fold (long_hold 16).
    destruct (held_ticks k (1 + Z.of_nat 16)) as [Ho Hi].
    rewrite Ho, Hi, app_nil_r. f_equal. }
  rewrite H. unfold invoked, object. cbn [fst snd].
  split; [reflexivity|]. split.
  - cbv. intros [E|[E|[]]]; discriminate E.
  - vm_compute. split; reflexivity.
Qed.

(** ** A second press after the double-press window *)

(** C4.  On the code the click count does not resolve to 1 in the idle
    state.  For every client, whenever the machine is idle [getClickCount]
    returns 0: [resetState] clears the counter in the very tick that
    confirms the single click.  In the scenario of the claim (window
    300 ms, release edge at time 16, second press edge at time 366, which
    is 350 ms later) no double press fires: only the press and release
    handlers are invoked and [isDoublePressed] returns false.  But the
    machine is idle with the counter 0 when the window expires at time 316,
    the late press edge starts a new gesture with the counter 1 in the
    pressed state, and after the second click the machine is idle with the
    counter 0 again. *)
Theorem C4_click_count_in_idle_is_zero :
  (forall pin activeLevel cs,
     let d := object (calls cs (Debounce16_new pin activeLevel)) in
     stateButton d = STATE_IDLE -> result (getClickCount d) = 0) /\
  let expiry := calls (first_click ++ ticks 300 false 17
                         ++ [CallGetClickCount]) fresh in
  let second := calls (first_click ++ ticks 344 false 17
                         ++ ticks 6 true 361) fresh in
  let whole := calls (late_second_click
                        ++ [CallIsDoublePressed; CallGetClickCount]) fresh in
  stateButton (object expiry) = STATE_IDLE /\
  last (result expiry) Void = Count 0 /\
  timeEvent (object second) = 16 /\
  timePress (object second) = 366 /\
  stateButton (object second) = STATE_PRESS_FIRST /\
  countClick (object second) = 1 /\
  stateButton (object whole) = STATE_IDLE /\
  invoked whole
  = [press_handler; release_handler; press_handler; release_handler] /\
  skipn 777 (result whole) = [Bool false; Count 0] /\
  last (result whole) Void <> Count 1.
Proof.
  split.
  - intros pin activeLevel cs. cbv zeta. intros Hidle.
    replace (result (getClickCount
                       (object (calls cs (Debounce16_new pin activeLevel)))))
      with (countClick (object (calls cs (Debounce16_new pin activeLevel)))).
    + apply calls_keep_idle_count; [reflexivity|exact Hidle].
    + generalize (object (calls cs (Debounce16_new pin activeLevel))).
      clear. intros d. members d. unfold_ops. cbn.
      destruct st, (0 <? cnt); reflexivity.
  - vm_compute. repeat split. discriminate.
Qed.

Lemma C4_click_count_in_idle_witness :
  let d := object (calls (first_click ++ ticks 300 false 17) fresh) in
  stateButton d = STATE_IDLE /\ result (getClickCount d) = 0.
Proof.
  cbv zeta.
  assert (H : stateButton
                (object (calls (first_click ++ ticks 300 false 17) fresh))
              = STATE_IDLE) by (vm_compute; reflexivity).
  split; [exact H|].
  exact (proj1 C4_click_count_in_idle_is_zero 17 true _ H).
Defined.

(** ** Disabling double-press detection in mid-gesture *)

(** With double-press detection never enabled the machine never waits for
    a second press and never counts a second click. *)
Lemma call_single_clicks_only c d :
  never_enables_double_press [c] = true ->
  single_clicks_only d -> single_clicks_only (object (call c d)).
Proof.
  unfold single_clicks_only. intros Hc (Hen & Hst & Hcnt).
  members d. cbn in Hen, Hst, Hcnt. subst edp.
  destruct c; try (destruct enable; try discriminate Hc);
    run_machine; repeat split; auto; try discriminate; try congruence.
Qed.

Lemma calls_single_clicks_only cs : forall d,
  never_enables_double_press cs = true ->
  single_clicks_only d -> single_clicks_only (object (calls cs d)).
Proof.
  induction cs as [|c cs IH]; intros d Hcs Hd.
  - exact Hd.
  - rewrite calls_cons. cbn [never_enables_double_press forallb] in Hcs.
    apply andb_true_iff in Hcs. destruct Hcs as [Hc Hcs].
    apply IH; [exact Hcs|]. apply call_single_clicks_only; [|exact Hd].
    cbn. rewrite Hc. reflexivity.
Qed.

Lemma never_enabled_never_counts_two cs :
  never_enables_double_press cs = true ->
  countClick (object (calls cs fresh)) <> 2.
Proof.
  intros Hcs.
  destruct (calls_single_clicks_only cs fresh Hcs) as (_ & _ & [H|H]).
  - repeat split; [discriminate | left; reflexivity].
  - rewrite H. discriminate.
  - rewrite H. discriminate.
Qed.

(** Ticks of an object with both features disabled only shift samples
    into the history. *)
Lemma feed_inert inputs : forall d,
  machine_runs d = false ->
  invoked (calls (feed inputs) d) = [] /\
  object (calls (feed inputs) d)
  = set_historyButton (historyButton (object (calls (feed inputs) d))) d.
Proof.
  induction inputs as [|x inputs IH]; intros d Hoff.
  - split; [reflexivity|]. members d. reflexivity.
  - change (feed (x :: inputs))
      with (CallUpdate (fst x) (snd x) :: feed inputs).
    rewrite calls_cons, call_update, update_inert by exact Hoff.
    unfold object at 2 4 6, invoked at 2. cbn [fst snd app].
    set (d1 := set_historyButton _ d).
    assert (Hoff1 : machine_runs d1 = false).
    { subst d1. members d. exact Hoff. }
    destruct (IH d1 Hoff1) as [Hi Ho].
    unfold invoked at 1, object at 1. cbn [fst snd].
    split; [exact Hi|].
    rewrite Ho at 1. subst d1. members d. reflexivity.
Qed.

(** C2.  On the code the first half of the claim holds and the second
    does not.  For every object, [enableDoublePressDetection(false)] clears
    the click counter and the double-press flag at once and invokes no
    handler; but it leaves the state of the machine as it was.  An object
    whose double-press detection was never enabled never counts a second
    click.  Yet with both features enabled and the machine waiting for the
    second press, disabling double-press detection and pressing again
    counts a second click: [getClickCount] returns 2, where the same calls
    on an object that never had double-press detection enabled return 1. *)
Theorem C2_disable_mid_gesture_still_counts_two :
  (forall d,
     let off := enableDoublePressDetection false d in
     countClick (object off) = 0 /\
     flagDoublePressed (object off) = false /\
     flagEnableDoublePress (object off) = false /\
     stateButton (object off) = stateButton d /\
     invoked off = []) /\
  (forall cs, never_enables_double_press cs = true ->
     countClick (object (calls cs fresh)) <> 2) /\
  let waiting := object (calls half_gesture fresh) in
  let disabled := calls (half_gesture ++ disable_then_press) fresh in
  let never := calls (half_gesture_never_enabled ++ disable_then_press)
                 fresh in
  stateButton waiting = STATE_RELEASE_FIRST /\
  countClick (object (enableDoublePressDetection false waiting)) = 0 /\
  stateButton (object (enableDoublePressDetection false waiting))
  = STATE_RELEASE_FIRST /\
  never_enables_double_press disable_then_press = true /\
  last (result disabled) Void = Count 2 /\
  last (result never) Void = Count 1 /\
  last (result disabled) Void <> last (result never) Void.
Proof.
  split; [|split].
  - intros d. cbv zeta. members d. repeat split.
  - exact never_enabled_never_counts_two.
  - vm_compute. repeat split. discriminate.
Qed.

Lemma C2_disable_mid_gesture_witness :
  never_enables_double_press
    (half_gesture_never_enabled ++ disable_then_press) = true /\
  countClick
    (object (calls (half_gesture_never_enabled ++ disable_then_press) fresh))
  <> 2.
Proof.
  assert (H : never_enables_double_press
                (half_gesture_never_enabled ++ disable_then_press) = true)
    by (vm_compute; reflexivity).
  split; [exact H|].
  exact (proj1 (proj2 C2_disable_mid_gesture_still_counts_two) _ H).
Defined.

(** * Further properties *)

(** ** What a client can observe of the object between calls *)

Lemma call_in_range c d : in_range d -> in_range (object (call c d)).
Proof.
  unfold in_range. intros (Hh & Hw & Ht & Hc).
  destruct c; members d; run_ops; cbn in *;
    repeat split; try lia; try (apply Z.mod_pos_bound; lia).
Qed.

Lemma call_machine_ok c d : machine_ok d -> machine_ok (object (call c d)).
Proof.
  unfold machine_ok. intros (H1 & H2 & H3 & H4 & H5).
  destruct c; members d; destruct flp; run_ops; cbn in *;
    repeat split; intros; auto; try discriminate; try congruence;
    try (specialize (H3 eq_refl); discriminate).
Qed.

Lemma calls_invariant (P : Debounce16 -> Prop) :
  (forall c d, P d -> P (object (call c d))) ->
  forall cs d, P d -> P (object (calls cs d)).
Proof.
  intros Hstep cs. induction cs as [|c cs IH]; intros d Hd.
  - exact Hd.
  - rewrite calls_cons. apply IH. apply Hstep. exact Hd.
Qed.

(** X1.  Whatever a client has called since construction, the history, the
    window and the threshold hold 16-bit values and the click counter is
    0, 1 or 2. *)
Theorem X1_members_stay_in_range pin activeLevel cs :
  in_range (object (calls cs (Debounce16_new pin activeLevel))).
Proof.
  apply calls_invariant; [exact call_in_range|].
  unfold in_range. cbn. unfold PATTERN_UP. lia.
Qed.

(** X2.  Whatever a client has called since construction, the machine is
    in none of the two reserved states, and the long-press flag is set only
    in the long-press state: [isLongPressed] returns true only there. *)
Theorem X2_machine_between_calls pin activeLevel cs :
  let d := object (calls cs (Debounce16_new pin activeLevel)) in
  stateButton d <> STATE_WAIT_DOUBLE_PRESS /\
  stateButton d <> STATE_WAIT_LONG_PRESS /\
  (result (isLongPressed d) = true ->
   stateButton d = STATE_LONG_PRESS_ACTIVE).
Proof.
  cbv zeta.
  assert (H : machine_ok (object (calls cs (Debounce16_new pin activeLevel)))).
  { apply calls_invariant; [exact call_machine_ok|].
    unfold machine_ok. cbn. repeat split; discriminate. }
  destruct H as (H1 & H2 & H3 & _). repeat split; assumption.
Qed.

Lemma X2_machine_between_calls_witness :
  let d := object (calls ([CallEnableLongPressDetection true;
                           CallSetLongPressThreshold 3]
                            ++ ticks 9 true 1) fresh) in
  result (isLongPressed d) = true /\
  stateButton d = STATE_LONG_PRESS_ACTIVE.
Proof.
  cbv zeta.
  assert (H : result (isLongPressed
                        (object (calls ([CallEnableLongPressDetection true;
                                         CallSetLongPressThreshold 3]
                                          ++ ticks 9 true 1) fresh)))
              = true) by (vm_compute; reflexivity).
  split; [exact H|].
  exact (proj2 (proj2 (X2_machine_between_calls 17 true _)) H).
Defined.

(** X3.  Whatever a client has called since construction, [isDoublePressed]
    returns false and changes nothing: the machine sets the double-press
    flag and calls [resetState], which clears it, within the same tick. *)
Theorem X3_isDoublePressed_is_never_true pin activeLevel cs :
  let d := object (calls cs (Debounce16_new pin activeLevel)) in
  isDoublePressed d = (false, d, []).
Proof.
  cbv zeta.
  assert (H : machine_ok (object (calls cs (Debounce16_new pin activeLevel)))).
  { apply calls_invariant; [exact call_machine_ok|].
    unfold machine_ok. cbn. repeat split; discriminate. }
  destruct H as (_ & _ & _ & H & _). revert H.
  generalize (object (calls cs (Debounce16_new pin activeLevel))).
  clear. intros d. members d. cbn. intros ->. reflexivity.
Qed.

(** X4.  Whatever a client has called since construction, [getClickCount]
    changes nothing: the counter is already 0 whenever the machine is idle,
    so the reset in [getClickCount] never takes effect. *)
Theorem X4_getClickCount_changes_nothing pin activeLevel cs :
  let d := object (calls cs (Debounce16_new pin activeLevel)) in
  getClickCount d = (countClick d, d, []).
Proof.
  cbv zeta.
  assert (H : machine_ok (object (calls cs (Debounce16_new pin activeLevel)))).
  { apply calls_invariant; [exact call_machine_ok|].
    unfold machine_ok. cbn. repeat split; discriminate. }
  destruct H as (_ & _ & _ & _ & H). revert H.
  generalize (object (calls cs (Debounce16_new pin activeLevel))).
  clear. intros d. members d. cbn. intros H.
  unfold_ops. cbn. destruct st; cbn; rewrite ?andb_false_r; try reflexivity.
  rewrite (H eq_refl). reflexivity.
Qed.

(** ** Handlers *)

Lemma call_invokes_registered c d k :
  In k (invoked (call c d)) -> In (Some k) (slots d).
Proof.
  unfold slots. destruct c; members d; run_ops; cbn in *;
    rewrite ?in_app_iff; cbn; intros H;
    repeat match goal with
           | H : _ \/ _ |- _ => destruct H as [H|H]
           end; subst; tauto.
Qed.

Lemma call_slots c d k :
  In k (slots (object (call c d))) ->
  In k (slots d) \/ In k (registers c).
Proof.
  unfold slots, registers. destruct c; members d; run_ops; cbn in *; tauto.
Qed.

Lemma calls_invoke_registered cs : forall d h,
  In h (invoked (calls cs d)) ->
  In (Some h) (slots d) \/ exists c, In c cs /\ In (Some h) (registers c).
Proof.
  induction cs as [|c cs IH]; intros d h.
  - cbn. intros [].
  - rewrite calls_cons. unfold invoked at 1. cbn [snd].
    rewrite in_app_iff. intros [H|H].
    + left. apply (call_invokes_registered c). exact H.
    + destruct (IH _ _ H) as [H1|(c' & Hin & Hreg)].
      * destruct (call_slots _ _ _ H1) as [H2|H2]; [left; exact H2|].
        right. exists c. split; [left; reflexivity|exact H2].
      * right. exists c'. split; [right; exact Hin|exact Hreg].
Qed.

(** X5.  A handler is only ever invoked after the client has registered
    it: every handler a sequence of calls on a new object invokes is the
    argument of one of the registration calls of the sequence. *)
Theorem X5_only_registered_handlers_run pin activeLevel cs h :
  In h (invoked (calls cs (Debounce16_new pin activeLevel))) ->
  exists c, In c cs /\ In (Some h) (registers c).
Proof.
  intros H. destruct (calls_invoke_registered _ _ _ H) as [H1|H1].
  - cbn in H1. repeat (destruct H1 as [H1|H1]; try discriminate H1).
    contradiction.
  - exact H1.
Qed.

Lemma X5_only_registered_handlers_run_witness :
  In press_handler (invoked (calls (five_on ++ ticks 1 true 6) fresh)) /\
  exists c, In c (five_on ++ ticks 1 true 6)
            /\ In (Some press_handler) (registers c).
Proof.
  assert (H : In press_handler
                (invoked (calls (five_on ++ ticks 1 true 6) fresh)))
    by (vm_compute; left; reflexivity).
  split; [exact H|].
  exact (X5_only_registered_handlers_run 17 true _ _ H).
Defined.

(** ** Settings *)

Lemma call_keeps_settings c d :
  is_setting_call c = false -> settings (object (call c d)) = settings d.
Proof.
  destruct c; try discriminate; intros _; members d; run_ops; reflexivity.
Qed.

Lemma call_settings_only c d d' :
  is_setting_call c = true -> settings d = settings d' ->
  settings (object (call c d)) = settings (object (call c d')).
Proof.
  intros Hc. members d. destruct d'. unfold settings. cbn.
  intros H. injection H as -> -> -> -> -> -> -> -> -> -> ->.
  destruct c; try discriminate Hc; run_ops; reflexivity.
Qed.

Lemma calls_settings cs : forall d d',
  settings d = settings d' ->
  settings (object (calls cs d))
  = settings (object (calls (filter is_setting_call cs) d')).
Proof.
  induction cs as [|c cs IH]; intros d d' H.
  - exact H.
  - rewrite calls_cons. cbn [filter].
    destruct (is_setting_call c) eqn:Hc.
    + rewrite calls_cons. apply IH. apply call_settings_only; assumption.
    + apply IH. rewrite call_keeps_settings by exact Hc. exact H.
Qed.

(** X6.  Ticks and queries never change the settings (pin, polarity,
    enabled features, window, threshold, registered handlers): after any
    sequence of calls the settings are what the configuration and
    registration calls of the sequence alone would have made them. *)
Theorem X6_settings_depend_on_setting_calls_only cs d :
  settings (object (calls cs d))
  = settings (object (calls (filter is_setting_call cs) d)).
Proof. apply calls_settings. reflexivity. Qed.

(** ** Polarity *)

Lemma call_flipped c d :
  call (flip_call c) (flip_level d)
  = (result (call c d), flip_level (object (call c d)), invoked (call c d)).
Proof.
  destruct c; members d; destruct lvl; unfold_ops; cbn;
    rewrite ?negb_involutive; split_ifs; reflexivity.
Qed.

Lemma calls_flipped cs : forall d,
  calls (map flip_call cs) (flip_level d)
  = (result (calls cs d), flip_level (object (calls cs d)),
     invoked (calls cs d)).
Proof.
  induction cs as [|c cs IH]; intros d.
  - reflexivity.
  - cbn [map]. rewrite !calls_cons, call_flipped.
    unfold result, object, invoked in *. cbn [fst snd].
    rewrite IH. reflexivity.
Qed.

(** X7.  Polarity is only a matter of reading the pin: an object built
    active LOW and ticked with the inverted pin levels gives the same
    replies and invokes the same handlers as the object built active HIGH,
    and ends with the same members apart from the polarity itself. *)
Theorem X7_active_low_is_active_high_inverted pin cs :
  calls (map flip_call cs) (Debounce16_new pin false)
  = (result (calls cs (Debounce16_new pin true)),
     flip_level (object (calls cs (Debounce16_new pin true))),
     invoked (calls cs (Debounce16_new pin true))).
Proof. apply (calls_flipped cs (Debounce16_new pin true)). Qed.

(** ** The release edge is the press edge ten ticks later *)

Lemma isReleased_frame d :
  settings (object (isReleased d)) = settings d /\
  historyButton (object (isReleased d)) = historyButton d /\
  stateButton (object (isReleased d)) = stateButton d.
Proof. members d. run_ops; repeat split. Qed.

Lemma poll_releases_cons x rest d :
  result (poll_releases (x :: rest) d)
  = result (isReleased (object (update (fst x) (snd x) d)))
    :: result (poll_releases rest
                 (object (isReleased (object (update (fst x) (snd x) d))))).
Proof.
  cbn [poll_releases]. unfold bind, ret, result, object.
  destruct (update (fst x) (snd x) d) as [[u d1] t1]. cbn [fst snd].
  destruct (isReleased d1) as [[p d2] t2]. cbn [fst snd].
  destruct (poll_releases rest d2) as [[ps d3] t3]. reflexivity.
Qed.

Lemma delayed_shift_in (r : nat) (p0 b : bool) ptail h :
  delayed r (p0 :: ptail) h ->
  delayed (if p0 then S r else O) (ptail ++ [b]) (shift_in h b).
Proof.
  intros (Hlen & Hq & Hon & Hoff). cbn [length] in Hlen.
  assert (Hl : length ptail = 9%nat) by lia.
  assert (H9 : Z.testbit h 9 = p0).
  { specialize (Hq 0%nat ltac:(lia)). cbn in Hq. exact Hq. }
  split; [rewrite length_app; cbn [length]; lia|]. split; [|split].
  - intros k Hk. destruct (Nat.eq_dec k 9) as [->|Hne].
    + change (9 - Z.of_nat 9) with 0. rewrite shift_in_bit0.
      rewrite <- Hl, nth_middle. reflexivity.
    + rewrite shift_in_bitS by lia. rewrite app_nth1 by lia.
      specialize (Hq (S k) ltac:(lia)). cbn [nth] in Hq. rewrite <- Hq.
      f_equal. lia.
  - intros i Hi. rewrite shift_in_bitS by lia. destruct p0.
    + destruct (Z.eq_dec i 0) as [->|Hne].
      * exact H9.
      * replace (10 + i - 1) with (10 + (i - 1)) by lia. apply Hon. lia.
    + cbn in Hi. lia.
  - intros Hr. rewrite shift_in_bitS by (destruct p0; lia). destruct p0.
    + replace (10 + Z.of_nat (S r) - 1) with (10 + Z.of_nat r) by lia.
      apply Hoff. lia.
    + exact H9.
Qed.

Lemma delayed_release_pattern r pending h :
  delayed r pending h -> release_pattern h = Nat.leb 6 r.
Proof.
  intros (_ & _ & Hon & Hoff). destruct (Nat.leb 6 r) eqn:Hr.
  - apply Nat.leb_le in Hr. apply release_pattern_iff.
    intros i Hi. replace i with (10 + (i - 10)) by lia. apply Hon. lia.
  - apply Nat.leb_gt in Hr.
    destruct (release_pattern h) eqn:Hp; [|reflexivity].
    rewrite release_pattern_iff in Hp.
    rewrite Hp in Hoff by lia. discriminate Hoff. exact Hr.
Qed.

Lemma poll_releases_delayed inputs : forall d r pending,
  machine_runs d = false ->
  delayed r pending (historyButton d) ->
  flagReleaseProcessed d = Nat.leb 6 r ->
  result (poll_releases inputs d)
  = firstn (length inputs)
      (sixth_of_run r (pending ++ samples_of (levelActive d) inputs)).
Proof.
  induction inputs as [|x rest IH]; intros d r pending Hoff Hdl Hfl.
  - reflexivity.
  - rewrite poll_releases_cons.
    destruct pending as [|p0 ptail]; [destruct Hdl as [Hl _]; discriminate|].
    cbn [samples_of map app sixth_of_run length firstn].
    set (b := sample_of (levelActive d) (fst x)).
    set (r' := if p0 then S r else O).
    set (d1 := object (update (fst x) (snd x) d)).
    assert (Hd1 : d1 = set_historyButton (shift_in (historyButton d) b) d).
    { unfold d1. rewrite update_inert by exact Hoff. reflexivity. }
    assert (Hh1 : historyButton d1 = shift_in (historyButton d) b).
    { rewrite Hd1. members d. reflexivity. }
    assert (Hdl1 : delayed r' (ptail ++ [b]) (historyButton d1)).
    { rewrite Hh1. apply delayed_shift_in. exact Hdl. }
    assert (Hf1 : flagReleaseProcessed d1 = Nat.leb 6 r).
    { rewrite Hd1, <- Hfl. members d. reflexivity. }
    assert (Hs1 : settings d1 = settings d).
    { rewrite Hd1. members d. reflexivity. }
    destruct (isReleased_frame d1) as (Hs2 & Hh2 & _).
    f_equal.
    + rewrite isReleased_result, Hf1,
        (delayed_release_pattern r' _ _ Hdl1).
      subst r'. destruct p0.
      * destruct (Nat.eqb_spec (S r) 6) as [E|E],
          (Nat.leb_spec 6 r) as [E1|E1], (Nat.leb_spec 6 (S r)) as [E2|E2];
          try reflexivity; lia.
      * reflexivity.
    + fold (samples_of (levelActive d) rest).
      replace (ptail ++ b :: samples_of (levelActive d) rest)
        with ((ptail ++ [b]) ++ samples_of (levelActive d) rest)
        by (rewrite <- app_assoc; reflexivity).
      assert (Hlvl : levelActive (object (isReleased d1)) = levelActive d)
        by (unfold settings in Hs1, Hs2; congruence).
      rewrite <- Hlvl. apply IH.
      * unfold machine_runs in *. unfold settings in Hs1, Hs2. congruence.
      * rewrite Hh2. exact Hdl1.
      * rewrite isReleased_guard.
        apply (delayed_release_pattern r' _ _ Hdl1).
Qed.

(** X8.  A new object is ticked with any inputs and [isReleased] is polled
    after every tick.  The polls are those of [isPressed] ten ticks
    earlier: false for the first ten ticks, and then true exactly ten
    ticks after each press edge, whether the contact has been released or
    is still held. *)
Theorem X8_release_edge_is_delayed_press_edge pin activeLevel inputs :
  result (poll_releases inputs (Debounce16_new pin activeLevel))
  = firstn (length inputs)
      (repeat false 10
       ++ result (poll_presses inputs (Debounce16_new pin activeLevel))).
Proof.
  rewrite (poll_releases_delayed inputs (Debounce16_new pin activeLevel)
             0 (repeat false 10)).
  - rewrite (poll_presses_sixth inputs (Debounce16_new pin activeLevel) 0).
    + reflexivity.
    + reflexivity.
    + split; [cbn; intros i Hi; lia | intros _; reflexivity].
    + reflexivity.
  - reflexivity.
  - split; [reflexivity|]. split; [|split].
    + intros k Hk. cbn [historyButton Debounce16_new].
      unfold PATTERN_UP. rewrite Z.testbit_0_l.
      do 10 (destruct k as [|k]; [reflexivity|]). lia.
    + cbn. intros i Hi. lia.
    + intros _. reflexivity.
  - reflexivity.
Qed.

(** ** Bounce shorter than six samples never starts a gesture *)

(** An idle machine with the press guard clear does nothing on a tick that
    does not complete the press pattern. *)
Lemma update_idle_quiet raw t d :
  stateButton d = STATE_IDLE ->
  flagPressProcessed d = false ->
  press_pattern (shift_in (historyButton d) (sample_of (levelActive d) raw))
  = false ->
  update raw t d
  = (tt, set_historyButton
           (shift_in (historyButton d) (sample_of (levelActive d) raw)) d,
     []).
Proof.
  intros Hst Hfp Hp. rewrite update_unfold. cbv zeta.
  destruct (machine_runs d); [|reflexivity].
  revert Hp. generalize (shift_in (historyButton d)
                           (sample_of (levelActive d) raw)).
  intros h1 Hp. members d. cbn in Hst, Hfp. subst st fpp.
  unfold press_pattern in Hp. unfold_ops. cbn. rewrite Hp. reflexivity.
Qed.

Lemma feed_idle_quiet inputs : forall d r,
  stateButton d = STATE_IDLE ->
  flagPressProcessed d = false ->
  tracks r (historyButton d) -> (r < 6)%nat ->
  (forall i, nth i (sixth_of_run r (samples_of (levelActive d) inputs)) false
             = false) ->
  invoked (calls (feed inputs) d) = [] /\
  object (calls (feed inputs) d)
  = set_historyButton (historyButton (object (calls (feed inputs) d))) d.
Proof.
  induction inputs as [|x rest IH]; intros d r Hst Hfp Htr Hr Hno.
  - split; [reflexivity|]. members d. reflexivity.
  - change (feed (x :: rest))
      with (CallUpdate (fst x) (snd x) :: feed rest).
    set (b := sample_of (levelActive d) (fst x)).
    set (r' := if b then S r else O).
    assert (Hr' : (r' < 6)%nat).
    { specialize (Hno 0%nat). cbn in Hno. fold b in Hno. fold r' in Hno.
      apply Nat.eqb_neq in Hno. subst r'. destruct b; lia. }
    assert (Htr' : tracks r' (shift_in (historyButton d) b)).
    { apply tracks_shift_in. exact Htr. }
    assert (Hp : press_pattern (shift_in (historyButton d) b) = false).
    { rewrite (tracks_press_pattern r') by exact Htr'.
      apply Nat.leb_gt. exact Hr'. }
    rewrite calls_cons, call_update, update_idle_quiet by assumption.
    unfold object at 2 4 6, invoked at 2. cbn [fst snd app]. fold b.
    set (d1 := set_historyButton (shift_in (historyButton d) b) d).
    assert (H1 : stateButton d1 = STATE_IDLE
                 /\ flagPressProcessed d1 = false
                 /\ historyButton d1 = shift_in (historyButton d) b
                 /\ levelActive d1 = levelActive d).
    { subst d1. members d. cbn in *. repeat split; assumption. }
    destruct H1 as (Hst1 & Hfp1 & Hh1 & Hl1).
    destruct (IH d1 r') as [Hi Ho]; try assumption.
    + rewrite Hh1. exact Htr'.
    + intros i. rewrite Hl1. specialize (Hno (S i)). exact Hno.
    + unfold invoked at 1, object at 1. cbn [fst snd].
      split; [exact Hi|]. rewrite Ho at 1. subst d1. members d. reflexivity.
Qed.

(** X9.  An idle object with an all-OFF history and the press guard clear
    is ticked with inputs that never hold six consecutive ON samples.
    Whatever features are enabled and whatever the times, no handler is
    invoked and nothing but the history changes: the machine stays idle
    and the click counter stays as it was. *)
Theorem X9_short_bounce_never_starts_a_gesture d inputs :
  stateButton d = STATE_IDLE ->
  flagPressProcessed d = false ->
  historyButton d = PATTERN_UP ->
  (forall i, ~ sixth_sample (samples_of (levelActive d) inputs) i) ->
  let run := calls (feed inputs) d in
  invoked run = [] /\
  object run = set_historyButton (historyButton (object run)) d /\
  stateButton (object run) = STATE_IDLE /\
  countClick (object run) = countClick d.
Proof.
  intros Hst Hfp Hh Hno. cbv zeta.
  destruct (feed_idle_quiet inputs d 0) as [Hi Ho]; try assumption.
  - rewrite Hh. split; [cbn; intros i Hi; lia | intros _; reflexivity].
  - lia.
  - intros i.
    destruct (nth i (sixth_of_run 0 (samples_of (levelActive d) inputs))
                false) eqn:E; [|reflexivity].
    apply sixth_of_run_sixth_sample in E. destruct (Hno i E).
  - split; [exact Hi|]. split; [exact Ho|]. rewrite Ho.
    generalize (historyButton (object (calls (feed inputs) d))). intros z.
    revert Hst. clear. members d. cbn. intros ->. split; reflexivity.
Qed.

Lemma X9_short_bounce_witness :
  let d := object (calls ([CallEnableDoublePressDetection true;
                           CallEnableLongPressDetection true]
                            ++ register_handlers) fresh) in
  let bounce := [(true, 1); (true, 2); (true, 3); (true, 4); (true, 5);
                 (false, 6); (true, 7); (true, 8); (true, 9); (false, 10);
                 (true, 11); (true, 12)] in
  invoked (calls (feed bounce) d) = [] /\
  stateButton (object (calls (feed bounce) d)) = STATE_IDLE.
Proof.
  cbv zeta.
  pose proof (X9_short_bounce_never_starts_a_gesture
                (object (calls ([CallEnableDoublePressDetection true;
                                 CallEnableLongPressDetection true]
                                  ++ register_handlers) fresh))
                [(true, 1); (true, 2); (true, 3); (true, 4); (true, 5);
                 (false, 6); (true, 7); (true, 8); (true, 9); (false, 10);
                 (true, 11); (true, 12)]) as H.
  cbv zeta in H.
  destruct H as (H1 & _ & H3 & _).
  - vm_compute. reflexivity.
  - vm_compute. reflexivity.
  - vm_compute. reflexivity.
  - intros i Hs. apply sixth_of_run_sixth_sample in Hs. vm_compute in Hs.
    do 12 (destruct i as [|i]; [discriminate Hs|]).
    destruct i; discriminate Hs.
  - split; assumption.
Defined.

(** ** A held contact leaves the pressed states at the sixteenth sample *)

Lemma ones_shift_in k h : ones k h -> ones (S k) (shift_in h true).
Proof.
  intros H i Hi. destruct (Z.eq_dec i 0) as [->|Hne].
  - rewrite shift_in_bit0. symmetry. apply Z.ltb_lt. lia.
  - rewrite shift_in_bitS, H by lia.
    destruct (Z.ltb_spec (i - 1) (Z.of_nat k)),
      (Z.ltb_spec i (Z.of_nat (S k))); try reflexivity; lia.
Qed.

Lemma ones_press_pattern k h : ones k h -> press_pattern h = Nat.leb 6 k.
Proof.
  intros H. destruct (Nat.leb_spec 6 k) as [Hk|Hk].
  - apply press_pattern_iff. intros i Hi. rewrite H by lia.
    apply Z.ltb_lt. lia.
  - destruct (press_pattern h) eqn:Hp; [|reflexivity].
    rewrite press_pattern_iff in Hp. specialize (Hp 5 ltac:(lia)).
    rewrite H in Hp by lia. apply Z.ltb_lt in Hp. lia.
Qed.

Lemma ones_release_pattern k h : ones k h -> release_pattern h = Nat.leb 16 k.
Proof.
  intros H. destruct (Nat.leb_spec 16 k) as [Hk|Hk].
  - apply release_pattern_iff. intros i Hi. rewrite H by lia.
    apply Z.ltb_lt. lia.
  - destruct (release_pattern h) eqn:Hp; [|reflexivity].
    rewrite release_pattern_iff in Hp. specialize (Hp 15 ltac:(lia)).
    rewrite H in Hp by lia. apply Z.ltb_lt in Hp. lia.
Qed.

Lemma sample_of_active lvl : sample_of lvl lvl = true.
Proof. destruct lvl; reflexivity. Qed.

Lemma held_tick_on k t d :
  held k d -> held (S k) (object (update (levelActive d) t d)).
Proof.
  intros (Hrun & Hones & Hph). rewrite update_unfold. cbv zeta.
  rewrite Hrun, sample_of_active.
  pose proof (ones_shift_in _ _ Hones) as Hones1.
  pose proof (ones_press_pattern _ _ Hones1) as Hp.
  pose proof (ones_release_pattern _ _ Hones1) as Hr.
  revert Hones1 Hp Hr. generalize (shift_in (historyButton d) true).
  intros h1 Hones1 Hp Hr. clear Hones.
  unfold held. unfold press_pattern in Hp. unfold release_pattern in Hr.
  rewrite machine_history.
  assert (Hrun1 : machine_runs
                    (object (updateStateMachine t (set_historyButton h1 d)))
                  = true).
  { revert Hrun. clear. unfold machine_runs. members d. cbn.
    intros Hrun. run_ops; exact Hrun. }
  split; [exact Hrun1|]. split; [members d; exact Hones1|].
  clear Hrun1 Hones1 Hrun. revert Hph Hp Hr.
  destruct (Nat.ltb_spec k 6), (Nat.ltb_spec k 16),
    (Nat.ltb_spec (S k) 6), (Nat.ltb_spec (S k) 16),
    (Nat.leb_spec 6 (S k)), (Nat.leb_spec 16 (S k)); try lia;
    intros Hph Hp Hr; members d;
    cbn [stateButton flagPressProcessed flagLongPressed
         flagReleaseProcessed] in Hph;
    try match goal with
        | H : _ /\ _ /\ ((7 <= k)%nat -> _) |- _ =>
          let a := fresh in let b := fresh in let c := fresh in
          destruct H as (a & b & c);
          first [specialize (c ltac:(lia)) | clear c]
        end;
    repeat match goal with
           | H : _ /\ _ |- _ => destruct H
           | H : _ \/ _ |- _ => destruct H
           end; subst;
    destruct elp, edp;
    unfold_ops; cbn;
    repeat (first [rewrite Hp | rewrite Hr]; cbn);
    split_ifs;
    repeat (first [rewrite Hp | rewrite Hr]; cbn);
    split_ifs;
    repeat split; auto; try (intros; lia); try tauto.
Qed.

Lemma held_through times : forall k d,
  held k d ->
  held (k + length times) (object (calls (feed (hold_at d times)) d)).
Proof.
  induction times as [|t times IH]; intros k d Hd.
  - cbn [length]. rewrite Nat.add_0_r. exact Hd.
  - change (feed (hold_at d (t :: times)))
      with (CallUpdate (levelActive d) t :: feed (hold_at d times)).
    rewrite calls_cons, call_update. unfold object at 2. cbn [fst snd length].
    replace (k + S (length times))%nat with (S k + length times)%nat by lia.
    replace (hold_at d times)
      with (hold_at (object (update (levelActive d) t d)) times)
      by (unfold hold_at; rewrite update_levelActive; reflexivity).
    apply IH. apply held_tick_on. exact Hd.
Qed.

(** X10.  An idle, released object with a feature enabled is ticked with
    the contact ON sixteen times or more.  Whatever the threshold, the
    window and the times of the ticks, the machine has then left the
    pressed states: it is idle or waiting for a second press, and
    [isLongPressed] returns false although the contact is still held.
    (The sixteenth ON sample fills bits [15:10], which is the release
    test.) *)
Theorem X10_sixteen_on_samples_end_the_press d times :
  machine_runs d = true ->
  stateButton d = STATE_IDLE ->
  historyButton d = PATTERN_UP ->
  flagPressProcessed d = false ->
  flagLongPressed d = false ->
  (16 <= length times)%nat ->
  let d' := object (calls (feed (hold_at d times)) d) in
  result (isLongPressed d') = false /\
  (stateButton d' = STATE_IDLE \/ stateButton d' = STATE_RELEASE_FIRST) /\
  result (isDown d') = true.
Proof.
  intros Hrun Hst Hh Hfp Hfl Hlen. cbv zeta.
  assert (H0 : held 0 d).
  { split; [exact Hrun|]. split.
    - intros i Hi. rewrite Hh. unfold PATTERN_UP. rewrite Z.testbit_0_l.
      symmetry. apply Z.ltb_ge. lia.
    - cbn. repeat split; assumption. }
  pose proof (held_through times 0 d H0) as (_ & Hones & Hph).
  cbn [Nat.add] in Hph, Hones.
  replace (Nat.ltb (length times) 6) with false in Hph
    by (symmetry; apply Nat.ltb_ge; lia).
  replace (Nat.ltb (length times) 16) with false in Hph
    by (symmetry; apply Nat.ltb_ge; lia).
  destruct Hph as (_ & Hs & Hf).
  split; [exact Hf|]. split; [exact Hs|].
  unfold isDown, bind, gets, ret, result. cbn [fst].
  apply Z.eqb_eq. apply Z.bits_inj'. intros n Hn.
  change PATTERN_DOWN with (Z.ones 16).
  destruct (Z.lt_ge_cases n 16) as [Hlt|Hge].
  - rewrite Hones, Z.ones_spec_low by lia. apply Z.ltb_lt. lia.
  - rewrite Z.ones_spec_high by lia.
    destruct times as [|t times _] using rev_ind; [cbn in Hlen; lia|].
    unfold hold_at. rewrite map_app. cbn [map].
    apply u16_high_bit; [|exact Hge].
    apply (feed_history_range (levelActive d, t)).
Qed.

Lemma X10_sixteen_on_samples_witness :
  let d := object (calls [CallEnableLongPressDetection true;
                          CallSetLongPressThreshold 1000] fresh) in
  let slow := [200; 400; 600; 800; 1000; 1200; 1400; 1600; 1800; 2000;
               2200; 2400; 2600; 2800; 3000] in
  result (isLongPressed (object (calls (feed (hold_at d slow)) d))) = true /\
  result (isLongPressed
            (object (calls (feed (hold_at d (slow ++ [3200]))) d))) = false.
Proof.
  cbv zeta. split; [vm_compute; reflexivity|].
  apply X10_sixteen_on_samples_end_the_press;
    vm_compute; reflexivity.
Defined.

(** ** Elapsed times across the rollover of the clock *)

Lemma elapsed_across_rollover t0 e :
  0 <= e < 2 ^ 32 -> to_u32 (to_u32 (t0 + e) - t0) = e.
Proof.
  intros He. unfold to_u32. rewrite Zminus_mod_idemp_l.
  replace (t0 + e - t0) with e by lia. apply Z.mod_small. exact He.
Qed.

(** X11.  The double-press window is measured from the release edge also
    when the 32-bit clock rolls over in between.  The machine waits for
    the second press and is ticked when the clock shows the time of the
    release plus [e] milliseconds, wrapped to 32 bits.  If [e] has reached
    the window the machine returns to idle with the counter 0, whether or
    not a press edge arrives with that tick; if not, a press edge makes
    the click the second one and anything else leaves the machine
    waiting. *)
Theorem X11_window_measured_across_rollover d stateRaw e :
  machine_runs d = true ->
  stateButton d = STATE_RELEASE_FIRST ->
  0 <= e < 2 ^ 32 ->
  let now := to_u32 (timeEvent d + e) in
  let tick := update stateRaw now d in
  let press_edge :=
    press_pattern
      (shift_in (historyButton d) (sample_of (levelActive d) stateRaw))
    && negb (flagPressProcessed d) in
  (windowDoublePress d <= e ->
   stateButton (object tick) = STATE_IDLE /\ countClick (object tick) = 0) /\
  (e < windowDoublePress d -> press_edge = true ->
   stateButton (object tick) = STATE_PRESS_FIRST /\
   countClick (object tick) = 2 /\ timePress (object tick) = now) /\
  (e < windowDoublePress d -> press_edge = false ->
   stateButton (object tick) = STATE_RELEASE_FIRST /\
   countClick (object tick) = countClick d /\ invoked tick = []).
Proof.
  intros Hrun Hst He. cbv zeta. rewrite update_unfold. cbv zeta.
  rewrite Hrun.
  generalize (shift_in (historyButton d) (sample_of (levelActive d) stateRaw)).
  intros h1. clear Hrun. members d. cbn in Hst. subst st.
  cbn [timeEvent windowDoublePress flagPressProcessed countClick].
  unfold press_pattern.
  pose proof (elapsed_across_rollover te e He) as Hel.
  split; [|split].
  - intros Hw.
    assert (E1 : (e <? win) = false) by (apply Z.ltb_ge; lia).
    assert (E2 : (win <=? e) = true) by (apply Z.leb_le; lia).
    unfold_ops. cbn. rewrite Hel.
    destruct (Z.land h1 MASK_PRESS =? PATTERN_PRESS), fpp, cbp; cbn;
      rewrite ?E1, ?E2; cbn; destruct (cnt =? 2), cbd; cbn;
      split; reflexivity.
  - intros Hw Hp.
    assert (E1 : (e <? win) = true) by (apply Z.ltb_lt; lia).
    unfold_ops. cbn. rewrite Hel.
    destruct (Z.land h1 MASK_PRESS =? PATTERN_PRESS), fpp;
      try discriminate Hp.
    destruct cbp; cbn; rewrite ?E1; cbn; repeat split.
  - intros Hw Hp.
    assert (E1 : (e <? win) = true) by (apply Z.ltb_lt; lia).
    assert (E2 : (win <=? e) = false) by (apply Z.leb_gt; lia).
    unfold_ops. cbn. rewrite Hel.
    destruct (Z.land h1 MASK_PRESS =? PATTERN_PRESS), fpp;
      try discriminate Hp; cbn; rewrite ?E1, ?E2; cbn; repeat split.
Qed.

Lemma X11_window_measured_across_rollover_witness :
  let d := object (calls ([CallEnableDoublePressDetection true]
                            ++ ticks 10 true 4294967180
                            ++ ticks 6 false 4294967190) fresh) in
  (stateButton d = STATE_RELEASE_FIRST /\ timeEvent d = 4294967195 /\
   to_u32 (timeEvent d + 350) = 249) /\
  stateButton (object (update false 249 d)) = STATE_IDLE /\
  countClick (object (update false 249 d)) = 0.
Proof.
  cbv zeta.
  set (d := object (calls ([CallEnableDoublePressDetection true]
                             ++ ticks 10 true 4294967180
                             ++ ticks 6 false 4294967190) fresh)).
  assert (Hrun : machine_runs d = true) by (vm_compute; reflexivity).
  assert (Hst : stateButton d = STATE_RELEASE_FIRST)
    by (vm_compute; reflexivity).
  assert (He : 0 <= 350 < 2 ^ 32) by lia.
  split; [repeat split; vm_compute; reflexivity|].
  pose proof (X11_window_measured_across_rollover d false 350 Hrun Hst He)
    as H.
  cbv zeta in H. destruct H as (H & _).
  change (to_u32 (timeEvent d + 350)) with 249 in H.
  apply H. vm_compute. discriminate.
Defined.

(** X12.  The long-press threshold is measured from the press edge also
    when the clock rolls over in between.  The machine is in the pressed
    state with long-press detection enabled and no long press flagged, and
    is ticked when the clock shows the time of the press plus [e]
    milliseconds, wrapped to 32 bits.  Below the threshold a tick without
    a release edge changes nothing but the history and the release guard.
    From the threshold on the long-press-start handler is invoked first;
    without a release edge the long press is then active.  With a release
    edge in the same tick the machine returns to idle, after the start and
    release handlers only: the long-press-end handler is not invoked. *)
Theorem X12_threshold_measured_across_rollover d stateRaw e :
  machine_runs d = true ->
  stateButton d = STATE_PRESS_FIRST ->
  flagEnableLongPress d = true ->
  flagLongPressed d = false ->
  0 <= e < 2 ^ 32 ->
  let now := to_u32 (timePress d + e) in
  let tick := update stateRaw now d in
  let release_edge :=
    release_pattern
      (shift_in (historyButton d) (sample_of (levelActive d) stateRaw))
    && negb (flagReleaseProcessed d) in
  let handlers (cb : callback) :=
    match cb with Some h => [h] | None => [] end in
  (e < thresholdLongPress d -> release_edge = false ->
   stateButton (object tick) = STATE_PRESS_FIRST /\
   result (isLongPressed (object tick)) = false /\ invoked tick = []) /\
  (thresholdLongPress d <= e -> release_edge = false ->
   stateButton (object tick) = STATE_LONG_PRESS_ACTIVE /\
   result (isLongPressed (object tick)) = true /\
   invoked tick = handlers (callbackLongPressStart d)) /\
  (thresholdLongPress d <= e -> release_edge = true ->
   stateButton (object tick) = STATE_IDLE /\
   result (isLongPressed (object tick)) = false /\
   invoked tick
   = handlers (callbackLongPressStart d) ++ handlers (callbackRelease d)).
Proof.
  intros Hrun Hst Hen Hfl He. cbv zeta. rewrite update_unfold. cbv zeta.
  rewrite Hrun.
  generalize (shift_in (historyButton d) (sample_of (levelActive d) stateRaw)).
  intros h1. clear Hrun. members d. cbn in Hst, Hen, Hfl. subst st elp flp.
  cbn [timePress thresholdLongPress flagReleaseProcessed
       callbackLongPressStart callbackRelease].
  unfold release_pattern.
  pose proof (elapsed_across_rollover tp e He) as Hel.
  split; [|split].
  - intros Hw Hr.
    assert (E : (thr <=? e) = false) by (apply Z.leb_gt; lia).
    unfold_ops. cbn. rewrite Hel, E. cbn.
    destruct (Z.land h1 MASK_RELEASE =? PATTERN_RELEASE) eqn:Hpat, frp;
      try discriminate Hr; cbn; split_ifs; settle; repeat split.
  - intros Hw Hr.
    assert (E : (thr <=? e) = true) by (apply Z.leb_le; lia).
    unfold_ops. cbn. rewrite Hel, E. cbn.
    destruct (Z.land h1 MASK_RELEASE =? PATTERN_RELEASE) eqn:Hpat, frp;
      try discriminate Hr; destruct cbs; cbn; split_ifs; settle;
      repeat split.
  - intros Hw Hr.
    assert (E : (thr <=? e) = true) by (apply Z.leb_le; lia).
    unfold_ops. cbn. rewrite Hel, E. cbn.
    destruct (Z.land h1 MASK_RELEASE =? PATTERN_RELEASE) eqn:Hpat, frp;
      try discriminate Hr; destruct cbs, cbr; cbn; split_ifs; settle;
      repeat split.
Qed.

Lemma X12_threshold_measured_across_rollover_witness :
  let d := object (calls ([CallEnableLongPressDetection true;
                           CallSetLongPressThreshold 1000]
                            ++ register_handlers
                            ++ ticks 8 true 4294967180) fresh) in
  (stateButton d = STATE_PRESS_FIRST /\ timePress d = 4294967185 /\
   to_u32 (timePress d + 1200) = 1089) /\
  stateButton (object (update true 1089 d)) = STATE_LONG_PRESS_ACTIVE /\
  invoked (update true 1089 d) = [long_press_start_handler].
Proof.
  cbv zeta.
  set (d := object (calls ([CallEnableLongPressDetection true;
                            CallSetLongPressThreshold 1000]
                             ++ register_handlers
                             ++ ticks 8 true 4294967180) fresh)).
  assert (Hrun : machine_runs d = true) by (vm_compute; reflexivity).
  assert (Hst : stateButton d = STATE_PRESS_FIRST)
    by (vm_compute; reflexivity).
  assert (Hen : flagEnableLongPress d = true) by (vm_compute; reflexivity).
  assert (Hfl : flagLongPressed d = false) by (vm_compute; reflexivity).
  assert (He : 0 <= 1200 < 2 ^ 32) by lia.
  split; [repeat split; vm_compute; reflexivity|].
  pose proof (X12_threshold_measured_across_rollover d true 1200
                Hrun Hst Hen Hfl He) as H.
  cbv zeta in H. destruct H as (_ & H & _).
  change (to_u32 (timePress d + 1200)) with 1089 in H.
  destruct H as (H1 & _ & H3).
  - vm_compute. discriminate.
  - vm_compute. reflexivity.
  - split; [exact H1|exact H3].
Defined.

(** ** Long-press end follows long-press start *)

#[local] Arguments times_invoked : simpl never.

Lemma call_long_press_balance c d s e :
  is_registration c = false ->
  long_press_handlers s e d ->
  long_press_handlers s e (object (call c d)) /\
  (times_invoked e (invoked (call c d))
   + long_press_open (object (call c d))
   <= times_invoked s (invoked (call c d)) + long_press_open d)%nat.
Proof.
  unfold long_press_handlers, long_press_open.
  intros Hc (Hs & He & Hne & Hp1 & Hp2 & Hr1 & Hr2 & Hd1 & Hd2).
  destruct c; try discriminate Hc; members d; cbn in Hs, He; subst cbs cbe;
    cbn [callbackPress callbackRelease callbackDoublePress] in *;
    run_ops;
    (split; [repeat split; assumption|]);
    unfold times_invoked; cbn [count_occ];
    repeat match goal with
           | |- context [Nat.eq_dec ?a ?b] =>
             destruct (Nat.eq_dec a b); try congruence
           end; cbn; lia.
Qed.

Lemma calls_long_press_balance cs : forall d s e,
  forallb (fun c => negb (is_registration c)) cs = true ->
  long_press_handlers s e d ->
  (times_invoked e (invoked (calls cs d))
   + long_press_open (object (calls cs d))
   <= times_invoked s (invoked (calls cs d)) + long_press_open d)%nat.
Proof.
  induction cs as [|c cs IH]; intros d s e Hcs Hd.
  - unfold times_invoked. cbn. lia.
  - cbn [forallb] in Hcs. apply andb_true_iff in Hcs.
    destruct Hcs as [Hc Hcs]. apply negb_true_iff in Hc.
    destruct (call_long_press_balance c d s e Hc Hd) as [Hd1 H1].
    specialize (IH _ s e Hcs Hd1).
    rewrite calls_cons.
    change (invoked (?r, ?o, ?t)) with t.
    change (object (?r, ?o, ?t)) with o.
    unfold times_invoked in *. rewrite !count_occ_app.
    unfold Handler in *. lia.
Qed.

(** X13.  The long-press-end handler never runs without a long-press-start
    before it.  With the two handlers registered and distinct from one
    another and from the other slots, and the machine not in the
    long-press state, any sequence of calls that registers nothing has
    invoked the end handler at most as often as the start handler; while
    the machine is in the long-press state one start is still unmatched. *)
Theorem X13_long_press_end_follows_start cs d s e :
  long_press_handlers s e d ->
  stateButton d <> STATE_LONG_PRESS_ACTIVE ->
  forallb (fun c => negb (is_registration c)) cs = true ->
  (times_invoked e (invoked (calls cs d))
   + long_press_open (object (calls cs d))
   <= times_invoked s (invoked (calls cs d)))%nat.
Proof.
  intros Hd Hst Hcs.
  pose proof (calls_long_press_balance cs d s e Hcs Hd) as H.
  replace (long_press_open d) with 0%nat in H; [lia|].
  unfold long_press_open. destruct (stateButton d); try reflexivity.
  contradiction Hst. reflexivity.
Qed.

Lemma X13_long_press_end_follows_start_witness :
  let d := object (calls register_handlers fresh) in
  let cs := [CallEnableLongPressDetection true; CallSetLongPressThreshold 3]
              ++ ticks 9 true 1 in
  long_press_open (object (calls cs d)) = 1%nat /\
  (times_invoked long_press_end_handler (invoked (calls cs d)) + 1
   <= times_invoked long_press_start_handler (invoked (calls cs d)))%nat.
Proof.
  cbv zeta.
  assert (H : long_press_open
                (object (calls ([CallEnableLongPressDetection true;
                                 CallSetLongPressThreshold 3]
                                  ++ ticks 9 true 1)
                           (object (calls register_handlers fresh))))
              = 1%nat) by (vm_compute; reflexivity).
  split; [exact H|]. rewrite <- H at 1.
  apply X13_long_press_end_follows_start.
  - unfold long_press_handlers. vm_compute.
    repeat split; try discriminate.
  - vm_compute. discriminate.
  - vm_compute. reflexivity.
Defined.

(** ** The polling sketch [DebounceSimple] *)

Lemma reports_app out1 out2 :
  DebounceSimple.reports (out1 ++ out2)
  = (DebounceSimple.reports out1 + DebounceSimple.reports out2)%nat.
Proof.
  unfold DebounceSimple.reports. rewrite filter_app, length_app. reflexivity.
Qed.

Lemma reports_invoked tr : DebounceSimple.reports (map Invoked tr) = 0%nat.
Proof. induction tr as [|h tr IH]; [reflexivity|exact IH]. Qed.

(** One run of [loop], in terms of the run of ON samples [r] the button
    has seen: it reports a press exactly when it samples the sixth ON in a
    row. *)
Lemma simple_loop_step L i g r :
  machine_runs (DebounceSimple.button g) = false ->
  levelActive (DebounceSimple.button g) = true ->
  tracks r (historyButton (DebounceSimple.button g)) ->
  flagPressProcessed (DebounceSimple.button g) = Nat.leb 6 r ->
  let gate :=
    DebounceSimple.INTERVAL_DEBOUNCE
    <=? to_u32 (currentMillis i - DebounceSimple.timeDebounce g) in
  let r' := if gate then (if pinLevel i then S r else O) else r in
  let fire := gate && Nat.eqb r' 6 in
  let g' := fst (DebounceSimple.loop L i g) in
  machine_runs (DebounceSimple.button g') = false /\
  levelActive (DebounceSimple.button g') = true /\
  tracks r' (historyButton (DebounceSimple.button g')) /\
  flagPressProcessed (DebounceSimple.button g') = Nat.leb 6 r' /\
  DebounceSimple.timeDebounce g'
  = (if gate then currentMillis i else DebounceSimple.timeDebounce g) /\
  DebounceSimple.stateLed g' = xorb (DebounceSimple.stateLed g) fire /\
  DebounceSimple.reports (snd (DebounceSimple.loop L i g))
  = (if fire then 1%nat else 0%nat).
Proof.
  intros Hoff Hlvl Htr Hfl. cbv zeta.
  unfold DebounceSimple.loop.
  destruct (DebounceSimple.INTERVAL_DEBOUNCE
            <=? to_u32 (currentMillis i - DebounceSimple.timeDebounce g))
    eqn:Hgate.
  - rewrite update_inert by exact Hoff. rewrite Hlvl.
    change (sample_of true (pinLevel i)) with (pinLevel i).
    set (b1 := set_historyButton _ (DebounceSimple.button g)).
    change (object (tt, b1, [])) with b1.
    change (invoked (tt, b1, [])) with (@nil Handler).
    cbn [map app].
    set (r' := if pinLevel i then S r else O).
    assert (H1 : historyButton b1
                 = shift_in (historyButton (DebounceSimple.button g))
                     (pinLevel i)
                 /\ flagPressProcessed b1
                    = flagPressProcessed (DebounceSimple.button g)
                 /\ settings b1 = settings (DebounceSimple.button g)).
    { subst b1. destruct (DebounceSimple.button g). repeat split. }
    destruct H1 as (Hh1 & Hf1 & Hs1).
    assert (Htr1 : tracks r' (historyButton b1)).
    { rewrite Hh1. apply tracks_shift_in. exact Htr. }
    pose proof (tracks_press_pattern _ _ Htr1) as Hp.
    destruct (isPressed_frame b1) as (Hs2 & Hh2 & _).
    pose proof (isPressed_result b1) as Hres.
    pose proof (isPressed_guard b1) as Hg.
    rewrite Hp, Hf1, Hfl in Hres. rewrite Hp in Hg.
    assert (Hfire : result (isPressed b1) = Nat.eqb r' 6).
    { rewrite Hres. subst r'. destruct (pinLevel i); [|reflexivity].
      destruct (Nat.eqb_spec (S r) 6), (Nat.leb_spec 6 r),
        (Nat.leb_spec 6 (S r)); try reflexivity; lia. }
    rewrite Hfire.
    destruct (Nat.eqb r' 6);
      destruct (DebounceSimple.INTERVAL_BLINK
                <=? to_u32 (currentMillis i - DebounceSimple.timeBlink g));
      cbn [fst snd DebounceSimple.button DebounceSimple.timeDebounce
           DebounceSimple.stateLed andb];
      rewrite ?Hh2, ?Hg;
      (split; [unfold machine_runs, settings in *; congruence|]);
      (split; [unfold settings in *; congruence|]);
      (split; [exact Htr1|]); (split; [reflexivity|]);
      (split; [reflexivity|]);
      (split; [destruct (DebounceSimple.stateLed g); reflexivity|]);
      rewrite !reports_app, reports_invoked;
      destruct (DebounceSimple.stateLed g); reflexivity.
  - cbn [fst snd map app andb].
    destruct (isPressed_frame (DebounceSimple.button g)) as (Hs2 & Hh2 & _).
    pose proof (isPressed_result (DebounceSimple.button g)) as Hres.
    pose proof (isPressed_guard (DebounceSimple.button g)) as Hg.
    pose proof (tracks_press_pattern _ _ Htr) as Hp.
    rewrite Hp, Hfl in Hres. rewrite Hp in Hg.
    assert (Hno : result (isPressed (DebounceSimple.button g)) = false).
    { rewrite Hres. destruct (Nat.leb 6 r); reflexivity. }
    rewrite Hno.
    destruct (DebounceSimple.INTERVAL_BLINK
              <=? to_u32 (currentMillis i - DebounceSimple.timeBlink g));
      cbn [fst snd DebounceSimple.button DebounceSimple.timeDebounce
           DebounceSimple.stateLed];
      rewrite ?Hh2, ?Hg;
      (split; [unfold machine_runs, settings in *; congruence|]);
      (split; [unfold settings in *; congruence|]);
      (split; [exact Htr|]); (split; [reflexivity|]);
      (split; [reflexivity|]);
      (split; [destruct (DebounceSimple.stateLed g); reflexivity|]);
      rewrite !reports_app, reports_invoked; reflexivity.
Qed.

Lemma simple_loops_reports L its : forall g r,
  machine_runs (DebounceSimple.button g) = false ->
  levelActive (DebounceSimple.button g) = true ->
  tracks r (historyButton (DebounceSimple.button g)) ->
  flagPressProcessed (DebounceSimple.button g) = Nat.leb 6 r ->
  let n := DebounceSimple.reports (snd (DebounceSimple.loops L its g)) in
  n = fired (sixth_of_run r
               (DebounceSimple.sampled (DebounceSimple.timeDebounce g) its))
  /\ DebounceSimple.stateLed (fst (DebounceSimple.loops L its g))
     = xorb (DebounceSimple.stateLed g) (Nat.odd n).
Proof.
  induction its as [|i rest IH]; intros g r Hoff Hlvl Htr Hfl; cbv zeta.
  - cbn. split; [reflexivity|]. rewrite xorb_false_r. reflexivity.
  - pose proof (simple_loop_step L i g r Hoff Hlvl Htr Hfl) as H.
    cbv zeta in H.
    cbn [DebounceSimple.loops DebounceSimple.sampled].
    destruct (DebounceSimple.loop L i g) as [g1 out1].
    cbn [fst snd] in H.
    destruct H as (Hoff1 & Hlvl1 & Htr1 & Hfl1 & Htd & Hled & Hrep).
    specialize (IH g1 _ Hoff1 Hlvl1 Htr1 Hfl1). cbv zeta in IH.
    destruct (DebounceSimple.loops L rest g1) as [g2 out2].
    cbn [fst snd] in *. destruct IH as [IHn IHled].
    rewrite reports_app, Hrep. rewrite Htd in IHn. rewrite IHled, Hled.
    destruct (DebounceSimple.INTERVAL_DEBOUNCE
              <=? to_u32 (currentMillis i - DebounceSimple.timeDebounce g)).
    + cbn [andb sixth_of_run] in *. rewrite fired_cons, <- IHn.
      split; [reflexivity|].
      destruct (Nat.eqb (if pinLevel i then S r else O) 6); cbn [Nat.add].
      * rewrite Nat.odd_succ, <- Nat.negb_odd.
        destruct (DebounceSimple.stateLed g),
          (Nat.odd (DebounceSimple.reports out2)); reflexivity.
      * rewrite xorb_false_r. reflexivity.
    + cbn [andb Nat.add] in *. split; [exact IHn|].
      rewrite xorb_false_r. reflexivity.
Qed.

(** X14.  The polling sketch toggles its LED once per press: however the
    iterations of [loop] fall in time, the number of "Button pressed"
    reports is the number of maximal runs of at least six ON samples among
    the pin levels sampled (those of the iterations at least 1 ms after the
    last sampling one), and the LED state is ON exactly when that number is
    odd. *)
Theorem X14_simple_sketch_toggles_once_per_press L its :
  let out := snd (DebounceSimple.loops L its DebounceSimple.globals) in
  let g := fst (DebounceSimple.loops L its DebounceSimple.globals) in
  DebounceSimple.reports out
  = long_runs 0 (DebounceSimple.sampled 0 its) /\
  DebounceSimple.stateLed g = Nat.odd (DebounceSimple.reports out).
Proof.
  cbv zeta.
  destruct (simple_loops_reports L its DebounceSimple.globals 0)
    as [Hn Hled].
  - reflexivity.
  - reflexivity.
  - split; [cbn; intros i Hi; lia | intros _; reflexivity].
  - reflexivity.
  - change (DebounceSimple.timeDebounce DebounceSimple.globals) with 0 in Hn.
    split.
    + rewrite Hn, <- fired_sixth_of_run. cbn [Nat.leb]. lia.
    + rewrite Hled. reflexivity.
Qed.

(** ** The double-press sketch *)

Lemma machine_ok_update raw t d :
  machine_ok d -> machine_ok (object (update raw t d)).
Proof.
  intros H. pose proof (call_machine_ok (CallUpdate raw t) d H) as H1.
  rewrite call_update in H1. exact H1.
Qed.

Lemma machine_ok_reads d :
  machine_ok d ->
  isDoublePressed d = (false, d, []) /\
  getClickCount d = (countClick d, d, []).
Proof.
  unfold machine_ok. intros (_ & _ & _ & Hf & Hc). members d.
  cbn in Hf, Hc. subst fdp. split; [reflexivity|].
  unfold_ops. cbn. destruct st; cbn; rewrite ?andb_false_r; try reflexivity.
  rewrite (Hc eq_refl). reflexivity.
Qed.

Lemma double_loop_step L i g :
  L <> DoublePressDetection.PIN_LED_DOUBLE ->
  machine_ok (DoublePressDetection.button g) ->
  DoublePressDetection.flagLedDoubleActive g = false ->
  machine_ok (DoublePressDetection.button
                (fst (DoublePressDetection.loop L i g))) /\
  DoublePressDetection.flagLedDoubleActive
    (fst (DoublePressDetection.loop L i g)) = false /\
  forallb (fun o => negb (double_press_signal o))
    (snd (DoublePressDetection.loop L i g)) = true.
Proof.
  intros HL Hok Hflag. unfold DoublePressDetection.loop.
  set (upd := if DoublePressDetection.INTERVAL_DEBOUNCE <=? _
              then _ else _).
  assert (Hupd : machine_ok (snd (fst upd))
                 /\ forallb (fun o => negb (double_press_signal o))
                      (snd upd) = true).
  { subst upd.
    destruct (DoublePressDetection.INTERVAL_DEBOUNCE
              <=? to_u32 (currentMillis i
                          - DoublePressDetection.timeDebounce g)).
    - cbn [fst snd]. split; [apply machine_ok_update; exact Hok|].
      induction (invoked (update (pinLevel i) (updateMillis i)
                            (DoublePressDetection.button g)))
        as [|h tr IH]; [reflexivity|exact IH].
    - cbn [fst snd]. split; [exact Hok|reflexivity]. }
  destruct upd as [[td1 b1] out1]. cbn [fst snd] in Hupd.
  destruct Hupd as [Hok1 Hout1].
  destruct (machine_ok_reads b1 Hok1) as [Hdp Hcc].
  rewrite Hdp. change (object (false, b1, [])) with b1. rewrite Hcc.
  unfold result, object, invoked. cbn [fst snd map]. rewrite Hflag.
  assert (HLb : (L =? DoublePressDetection.PIN_LED_DOUBLE) = false)
    by (apply Z.eqb_neq; exact HL).
  destruct (countClick b1 =? 1);
    destruct (DoublePressDetection.flagLedSingleActive g);
    destruct (DoublePressDetection.DURATION_LED_FEEDBACK <=? _);
    try destruct (DoublePressDetection.DURATION_LED_FEEDBACK <=? _);
    destruct (DoublePressDetection.INTERVAL_BLINK <=? _);
    cbn [fst snd andb DoublePressDetection.button
         DoublePressDetection.flagLedDoubleActive app];
    (split; [exact Hok1|]); (split; [reflexivity|]);
    rewrite ?forallb_app, ?Hout1; cbn [andb forallb app];
    try reflexivity;
    destruct (DoublePressDetection.stateHeartbeat g);
    cbn [negb double_press_signal andb forallb]; rewrite ?HLb;
    reflexivity.
Qed.

Lemma double_loops_quiet L its : forall g,
  L <> DoublePressDetection.PIN_LED_DOUBLE ->
  machine_ok (DoublePressDetection.button g) ->
  DoublePressDetection.flagLedDoubleActive g = false ->
  DoublePressDetection.flagLedDoubleActive
    (fst (DoublePressDetection.loops L its g)) = false /\
  forallb (fun o => negb (double_press_signal o))
    (snd (DoublePressDetection.loops L its g)) = true.
Proof.
  induction its as [|i rest IH]; intros g HL Hok Hflag.
  - split; [exact Hflag|reflexivity].
  - destruct (double_loop_step L i g HL Hok Hflag) as (Hok1 & Hflag1 & Hout1).
    cbn [DoublePressDetection.loops].
    destruct (DoublePressDetection.loop L i g) as [g1 out1].
    cbn [fst snd] in *.
    destruct (IH g1 HL Hok1 Hflag1) as [Hflag2 Hout2].
    destruct (DoublePressDetection.loops L rest g1) as [g2 out2].
    cbn [fst snd] in *. split; [exact Hflag2|].
    rewrite forallb_app, Hout1, Hout2. reflexivity.
Qed.

(** X15.  The double-press sketch never shows a double press.  After
    [setup] and any iterations of [loop], whatever the pin and the clock
    read, it has neither switched the double-press LED on nor printed the
    double-press report, because [isDoublePressed] has never returned
    true.  (The built-in LED is assumed not to be the double-press
    LED.) *)
Theorem X15_double_press_sketch_never_reports L its :
  L <> DoublePressDetection.PIN_LED_DOUBLE ->
  forallb (fun o => negb (double_press_signal o))
    (snd (DoublePressDetection.run L its)) = true /\
  DoublePressDetection.flagLedDoubleActive
    (fst (DoublePressDetection.run L its)) = false.
Proof.
  intros HL. unfold DoublePressDetection.run.
  destruct (DoublePressDetection.setup L DoublePressDetection.globals)
    as [g0 out0] eqn:Hsetup.
  assert (H0 : machine_ok (DoublePressDetection.button g0)
               /\ DoublePressDetection.flagLedDoubleActive g0 = false
               /\ forallb (fun o => negb (double_press_signal o)) out0
                  = true).
  { unfold DoublePressDetection.setup in Hsetup.
    injection Hsetup as <- <-. split; [|split].
    - unfold machine_ok. cbn. repeat split; discriminate.
    - reflexivity.
    - assert (HLb : (L =? DoublePressDetection.PIN_LED_DOUBLE) = false)
        by (apply Z.eqb_neq; exact HL).
      vm_compute. reflexivity. }
  destruct H0 as (Hok & Hflag & Hout0).
  destruct (double_loops_quiet L its g0 HL Hok Hflag) as [Hflag1 Hout1].
  destruct (DoublePressDetection.loops L its g0) as [g1 out1].
  cbn [fst snd] in *. split; [|exact Hflag1].
  rewrite forallb_app, Hout0, Hout1. reflexivity.
Qed.

Lemma X15_double_press_sketch_witness :
  let its := [mkIteration 1 true 1; mkIteration 2 true 2;
              mkIteration 3 false 3] in
  2 <> DoublePressDetection.PIN_LED_DOUBLE /\
  forallb (fun o => negb (double_press_signal o))
    (snd (DoublePressDetection.run 2 its)) = true.
Proof.
  cbv zeta.
  assert (H : 2 <> DoublePressDetection.PIN_LED_DOUBLE)
    by (vm_compute; discriminate).
  split; [exact H|].
  exact (proj1 (X15_double_press_sketch_never_reports 2 _ H)).
Defined.
